(** * jbt: Dalvik thread and stack dumps read from target memory

    A shallow embedding of [android-hacks/jbt.py], the gdb script that walks
    the thread list of a Dalvik VM and prints one block per thread.

    - gdb integer and pointer values are modelled by their value in [Z],
      with the arithmetic of [Z]; a read through [u2*] / [u4*] is
      truncated to 16 / 32 bits. The one comparison of the script between
      an [int] and a [u4], the assertion of [createCstrFromString], is
      unsigned, as in C ([as_u4]).
    - Python text (the results of [Value.string()] and of
      [decode("utf-16")], and the literals mixed with them) is a list of
      code points, [text].
    - A computation ends in a value, in a raised exception, or runs out of
      fuel ([Timeout]); the three [while] loops of the script (over the
      thread list in [getThreadbyThreadId] and in [AllThreadsStackTrace],
      over the frames in [ThreadStackTrace]) are the only consumers of fuel.
    - gdb fetches target memory lazily; every read below is placed where
      the script first needs the value.
    - The reads above go through typed views of the target; the cache of
      pointer types ([Types]) and the choice the command [jbt] makes from
      its arguments are embedded on their own. The printing of [Debug] is
      not part of the embedding.  *)

From stdpp Require Import gmap strings list pretty.
From Stdlib Require Import ZArith Lia Ascii.
From Stdlib Require String.

Local Open Scope Z_scope.

(** ** Exceptions and results *)

Inductive exn : Type :=
  | JavaBackTraceError (msg : string)
  | AssertionError
  | MemoryError            (* gdb.MemoryError *)
  | IndexError
  | KeyError
  | ValueError
  | StructError            (* struct.error *)
  | UnicodeDecodeError
  | UnicodeEncodeError.

Inductive res (A : Type) : Type :=
  | Ok (a : A)
  | Raise (e : exn)
  | Timeout.
Arguments Ok {A} a.
Arguments Raise {A} e.
Arguments Timeout {A}.

#[global] Instance res_ret : MRet res := fun A a => Ok a.
#[global] Instance res_bind : MBind res := fun A B f r =>
  match r with
  | Ok a => f a
  | Raise e => Raise e
  | Timeout => Timeout
  end.
#[global] Instance res_fmap : FMap res := fun A B f r =>
  match r with
  | Ok a => Ok (f a)
  | Raise e => Raise e
  | Timeout => Timeout
  end.

(** A target read: [None] is unreadable memory. *)
Definition fetch {A} (o : option A) : res A :=
  match o with
  | Some a => Ok a
  | None => Raise MemoryError
  end.

(** ** Text *)

Definition text := list Z.

Definition ord (c : ascii) : Z := Z.of_N (N_of_ascii c).

(** A Python literal as text. *)
Definition T (s : string) : text := map ord (String.list_ascii_of_string s).

(** [s.replace(old, new)] for one-character [old] and [new]. *)
Definition replace (old new : ascii) (s : text) : text :=
  map (fun c => if c =? ord old then ord new else c) s.

(** ["%d" % n] *)
Definition fmt_d (n : Z) : text := T (pretty n).

Arguments T : simpl never.
Arguments fmt_d : simpl never.

(** ** Target memory as the debugger shows it *)

Record Object := { o_clazz : Z; o_lock : Z }.
Record ClassObject := { c_descriptor : Z; c_sourceFile : Z }.
Record Method :=
  { m_clazz : Z; m_name : Z; m_accessFlags : Z; m_registersSize : Z }.
Record StackSaveArea :=
  { sa_prevFrame : Z; sa_method : Z; sa_currentPc : Z }.
Record Monitor := { mon_owner : Z; mon_obj : Z }.
Record ArrayObject := { a_length : Z }.
Record ThreadStruct :=
  { t_threadId : Z;
    t_systemTid : Z;
    t_status : Z;
    t_threadObj : Z;
    t_interpSave : bool;          (* truth value of the member [interpSave] *)
    t_interpSave_curFrame : Z;
    t_curFrame : Z;
    t_waitMonitor : Z;
    t_next : Z }.

(** The members of [gDvm] the script reads. *)
Record DvmGlobals :=
  { threadList : Z;
    classJavaLangClass : Z;
    classJavaLangVMThread : Z;
    offJavaLangThread_name : Z;
    offJavaLangThread_daemon : Z;
    offJavaLangThread_priority : Z;
    offJavaLangVMThread_vmData : Z }.

(** What gdb answers for the inspected process: typed views of its memory,
    the two layout constants that pointer arithmetic of the script depends
    on, and [str()] of a pointer value. *)
Record Target :=
  { gDvm : DvmGlobals;
    mem_object : Z -> option Object;
    mem_class : Z -> option ClassObject;
    mem_method : Z -> option Method;
    mem_savearea : Z -> option StackSaveArea;
    mem_monitor : Z -> option Monitor;
    mem_array : Z -> option ArrayObject;
    mem_thread : Z -> option ThreadStruct;
    mem_jvalue : Z -> string -> option Z;   (* union JValue, by member *)
    mem_u2 : Z -> option Z;
    mem_u4 : Z -> option Z;
    mem_cstr : Z -> option text;            (* Value.string() of a char* *)
    sizeof_StackSaveArea : Z;
    offsetof_ArrayObject_contents : Z;
    value_str : Z -> text }.

Definition read_u2 (m : Target) (a : Z) : res Z :=
  v ← fetch (mem_u2 m a); Ok (Z.land v 0xffff).

Definition read_u4 (m : Target) (a : Z) : res Z :=
  v ← fetch (mem_u4 m a); Ok (Z.land v 0xffffffff).

(** A value taken as a [u4]. When one operand of a comparison is an [int]
    and the other a [u4], the debugger converts both to the unsigned type,
    as C does, and compares the results. *)
Definition as_u4 (v : Z) : Z := Z.land v 0xffffffff.

(** Values that carry a [clazz] member: [humanReadableType] is applied to
    an [Object*] in [_waitMessage] and to a [Method*] in [__str__]. *)
Inductive ref : Type :=
  | ObjectRef (a : Z)
  | MethodRef (a : Z).

Definition clazz_of (m : Target) (r : ref) : res Z :=
  match r with
  | ObjectRef a => o_clazz <$> fetch (mem_object m a)
  | MethodRef a => m_clazz <$> fetch (mem_method m a)
  end.

(** ** class Dvm *)

Module Dvm.

Definition STRING_FIELDOFF_COUNT : Z := 20.
Definition STRING_FIELDOFF_OFFSET : Z := 16.
Definition STRING_FIELDOFF_VALUE : Z := 8.

Definition LW_SHAPE_MASK : Z := 0x1.
Definition LW_SHAPE_THIN : Z := 0.

Definition LW_LOCK_OWNER_MASK : Z := 0xffff.
Definition LW_LOCK_OWNER_SHIFT : Z := 3.

Definition LW_HASH_STATE_MASK : Z := 0x3.
Definition LW_HASH_STATE_SHIFT : Z := 1.

Definition _field_map : gmap string string :=
  list_to_map
    [ ("Boolean", "z"); ("Byte", "b"); ("Short", "s"); ("Char", "c");
      ("Int", "i"); ("Long", "j"); ("Float", "f"); ("Double", "d");
      ("Object", "l") ]%string.

Definition getFieldP (m : Target) (obj offset : Z) (field : string) : res Z :=
  match _field_map !! field with
  | None => Raise KeyError
  | Some member => fetch (mem_jvalue m (obj + offset) member)
  end.

Definition monitor_addr (lock : Z) : Z :=
  Z.land lock
    (Z.lnot (Z.lor (Z.shiftl LW_HASH_STATE_MASK LW_HASH_STATE_SHIFT)
                   LW_SHAPE_MASK)).

Definition _lockOwner (m : Target) (obj : Z) : res Z :=
  o ← fetch (mem_object m obj);
  let lock := o_lock o in
  if Z.land lock LW_SHAPE_MASK =? LW_SHAPE_THIN then
    Ok (Z.land (Z.shiftr lock LW_LOCK_OWNER_SHIFT) LW_LOCK_OWNER_MASK)
  else
    mon ← fetch (mem_monitor m (monitor_addr lock));
    let owner := mon_owner mon in
    if owner =? 0 then Ok 0
    else t_threadId <$> fetch (mem_thread m owner).

(** The [while thread_addr:] loop of [getThreadbyThreadId]; the thread it
    returns is given by its address. *)
Fixpoint getThreadbyThreadId_loop (fuel : nat) (m : Target)
    (thread_addr threadId : Z) : res (option Z) :=
  match fuel with
  | O => Timeout
  | S fuel' =>
      if thread_addr =? 0 then Ok None
      else
        t ← fetch (mem_thread m thread_addr);
        if t_threadId t =? threadId then Ok (Some thread_addr)
        else getThreadbyThreadId_loop fuel' m (t_next t) threadId
  end.

Definition getThreadbyThreadId (fuel : nat) (m : Target) (threadId : Z)
    : res (option Z) :=
  getThreadbyThreadId_loop fuel m (threadList (gDvm m)) threadId.

Definition getObjectLockHolder (fuel : nat) (m : Target) (obj : Z)
    : res (option Z) :=
  threadId ← _lockOwner m obj;
  if threadId =? 0 then Ok None
  else getThreadbyThreadId fuel m threadId.

(** [struct.pack('H', v)] on a little-endian host. *)
Definition pack_H (v : Z) : res (list Z) :=
  if (0 <=? v) && (v <=? 0xffff) then Ok [Z.land v 0xff; Z.shiftr v 8]
  else Raise StructError.

(** The [for] loop of [createCstrFromString]: [n] turns from [data]. *)
Fixpoint read_utf16_list (m : Target) (n : nat) (data : Z)
    : res (list (list Z)) :=
  match n with
  | O => Ok []
  | S n' =>
      u ← read_u2 m data;
      p ← pack_H u;
      rest ← read_utf16_list m n' (data + 2);
      Ok (p :: rest)
  end.

(** Python's "utf-16" codec, strict errors, little-endian host. *)
Fixpoint utf16_units (big_endian : bool) (bs : list Z) : res (list Z) :=
  match bs with
  | [] => Ok []
  | [_] => Raise UnicodeDecodeError
  | b0 :: b1 :: rest =>
      us ← utf16_units big_endian rest;
      Ok ((if big_endian then Z.lor (Z.shiftl b0 8) b1
           else Z.lor (Z.shiftl b1 8) b0) :: us)
  end.

Definition is_high_surrogate (u : Z) : bool := (0xD800 <=? u) && (u <=? 0xDBFF).
Definition is_low_surrogate (u : Z) : bool := (0xDC00 <=? u) && (u <=? 0xDFFF).

Fixpoint utf16_code_points (us : list Z) : res text :=
  match us with
  | [] => Ok []
  | u :: rest =>
      if is_high_surrogate u then
        match rest with
        | u2 :: rest' =>
            if is_low_surrogate u2 then
              cs ← utf16_code_points rest';
              Ok ((Z.lor (Z.shiftl (Z.land u 0x3FF) 10) (Z.land u2 0x3FF)
                   + 0x10000) :: cs)
            else Raise UnicodeDecodeError
        | [] => Raise UnicodeDecodeError
        end
      else if is_low_surrogate u then Raise UnicodeDecodeError
      else
        cs ← utf16_code_points rest;
        Ok (u :: cs)
  end.

(** A leading FF FE or FE FF is a byte order mark: it selects the byte
    order and is not part of the text. *)
Definition decode_utf16 (bs : list Z) : res text :=
  match bs with
  | b0 :: b1 :: rest =>
      if (b0 =? 0xFF) && (b1 =? 0xFE) then
        us ← utf16_units false rest; utf16_code_points us
      else if (b0 =? 0xFE) && (b1 =? 0xFF) then
        us ← utf16_units true rest; utf16_code_points us
      else us ← utf16_units false bs; utf16_code_points us
  | _ => us ← utf16_units false bs; utf16_code_points us
  end.

Definition createCstrFromString (m : Target) (s : Z) : res text :=
  if s =? 0 then Ok []
  else
    length ← getFieldP m s STRING_FIELDOFF_COUNT "Int";
    offset ← getFieldP m s STRING_FIELDOFF_OFFSET "Int";
    chars ← getFieldP m s STRING_FIELDOFF_VALUE "Object";
    let data := chars + offsetof_ArrayObject_contents m + 2 * offset in
    arr ← fetch (mem_array m chars);
    (* [offset + length] is an [int] and [chars["length"]] a [u4]: the
       comparison is unsigned, a negative sum counts as a large number *)
    if negb (as_u4 (offset + length) <=? as_u4 (a_length arr))
    then Raise AssertionError
    else
      utf16_list ← read_utf16_list m (Z.to_nat length) data;
      decode_utf16 (List.concat utf16_list).

Definition humanReadableDescriptor (desc : text) : res text :=
  let out := removelast desc in
  match out with
  | [] => Raise IndexError
  | c :: rest =>
      let out := if c =? ord "L" then rest else out in
      Ok (replace "/" "." out)
  end.

Definition humanReadableType (m : Target) (obj : ref) : res text :=
  clazz ← clazz_of m obj;
  if clazz =? 0 then Ok (T "(raw)")
  else
    c ← fetch (mem_class m clazz);
    desc ← fetch (mem_cstr m (c_descriptor c));
    humanReadableDescriptor desc.

End Dvm.

(** ** class Thread

    A [Thread] is the address it was built from: the constructor asserts
    that the address is not null and reads nothing. *)

Module Thread.

Definition statusList : list text :=
  map T [ "ZOMBIE"; "RUNNABLE"; "TIMED_WAIT"; "MONITOR"; "WAIT";
          "INITIALIZING"; "STARTING"; "NATIVE"; "VMWAIT"; "SUSPENDED" ]%string.

Definition __init__ (thread_addr : Z) : res Z :=
  if thread_addr =? 0 then Raise AssertionError else Ok thread_addr.

(** [thread[key]] *)
Definition __getitem__ {A} (m : Target) (thread : Z) (key : ThreadStruct -> A)
    : res A :=
  key <$> fetch (mem_thread m thread).

Definition name (m : Target) (thread : Z) : res text :=
  threadObj ← __getitem__ m thread t_threadObj;
  nameStr ← Dvm.getFieldP m threadObj (offJavaLangThread_name (gDvm m)) "Object";
  Dvm.createCstrFromString m nameStr.

Definition status (m : Target) (thread : Z) : res text :=
  status ← __getitem__ m thread t_status;
  if (status <? 0) || (Z.of_nat (List.length statusList) <=? status)
  then Ok (T "UNKNOWN")
  else match statusList !! Z.to_nat status with
       | Some s => Ok s
       | None => Raise IndexError
       end.

Definition curFrame (m : Target) (thread : Z) : res Z :=
  t ← fetch (mem_thread m thread);
  if t_interpSave t then Ok (t_interpSave_curFrame t)
  else Ok (t_curFrame t).

End Thread.

(** [Dvm.threadFromThreadObject]; it stands after class Thread, whose
    constructor it calls. *)
Definition threadFromThreadObject (m : Target) (obj : Z) : res Z :=
  vmData ← Dvm.getFieldP m obj (offJavaLangVMThread_vmData (gDvm m)) "Int";
  Thread.__init__ vmData.

(** ** class ThreadStackTrace *)

Definition nl : text := [10].
Definition dquote : text := [34].

Module ThreadStackTrace.

Definition _waitMessage (m : Target) (detail : text) (obj : Z)
    (thread : option Z) : res text :=
  let s := T "  - waiting " ++ detail ++ T " <" ++ value_str m obj ++ T "> " in
  s ← (if obj =? 0 then Ok s
       else
         clazz ← clazz_of m (ObjectRef obj);
         if clazz =? classJavaLangClass (gDvm m) then Ok s
         else
           ty ← Dvm.humanReadableType m (ObjectRef obj);
           Ok (s ++ T "(a " ++ ty ++ T ")"));
  s ← match thread with
      | None => Ok s
      | Some th =>
          name ← Thread.name m th;
          tid ← Thread.__getitem__ m th t_threadId;
          Ok (s ++ T " held by tid=" ++ fmt_d tid ++ T " (" ++ name ++ T ")")
      end;
  Ok (s ++ nl).

Definition _saveareaFromFP (m : Target) (frame_ptr : Z) : Z :=
  frame_ptr - sizeof_StackSaveArea m.

Definition invalid_register_msg (reg size : Z) : string :=
  "invalid register " +:+ pretty reg +:+ " (max " +:+ pretty size +:+ ")".

Definition _extractMonitorEnterObject (fuel : nat) (m : Target) (thread : Z)
    : res (Z * option Z) :=
  jfp ← Thread.curFrame m thread;
  let saveArea := _saveareaFromFP m jfp in
  sa ← fetch (mem_savearea m saveArea);
  let method := sa_method sa in
  currentPc ← read_u2 m (sa_currentPc sa);
  if negb (Z.land currentPc 0xff =? 0x1d) then
    Raise (JavaBackTraceError "wrong currentPc value")
  else
    let reg := Z.shiftr currentPc 8 in
    mth ← fetch (mem_method m method);
    if m_registersSize mth <? reg then
      Raise (JavaBackTraceError (invalid_register_msg reg (m_registersSize mth)))
    else
      obj ← read_u4 m (jfp + 4 * reg);
      if (obj =? 0) || negb (Z.land obj 7 =? 0) then
        (* the message is built with "%p", a conversion Python's % operator
           does not have: formatting raises before the [raise] is reached *)
        Raise ValueError
      else
        owner ← Dvm.getObjectLockHolder fuel m obj;
        Ok (obj, owner).

(** The header lines of one thread's block. The name and the status are
    computed when the tuple of arguments is built, the numbers are fetched
    when the format is applied. *)
Definition header (m : Target) (thread : Z) : res text :=
  threadObj ← Thread.__getitem__ m thread t_threadObj;
  isDeamon ← Dvm.getFieldP m threadObj (offJavaLangThread_daemon (gDvm m)) "Boolean";
  let deamon_str := if isDeamon =? 0 then [] else T " deamon" in
  name ← Thread.name m thread;
  status ← Thread.status m thread;
  priority ← Dvm.getFieldP m threadObj (offJavaLangThread_priority (gDvm m)) "Int";
  tid ← Thread.__getitem__ m thread t_threadId;
  systemTid ← Thread.__getitem__ m thread t_systemTid;
  Ok (dquote ++ name ++ dquote ++ deamon_str ++ T " prio=" ++ fmt_d priority
        ++ T " tid=" ++ fmt_d tid ++ T " " ++ status ++ nl
        ++ T "  | sysTid=" ++ fmt_d systemTid ++ T " self=" ++ value_str m thread
        ++ nl).

(** One stack trace line, for a frame whose method is not null. *)
Definition trace_line (m : Target) (jmethodp : Z) : res text :=
  ty ← Dvm.humanReadableType m (MethodRef jmethodp);
  mth ← fetch (mem_method m jmethodp);
  name ← fetch (mem_cstr m (m_name mth));
  let s := T "  at " ++ ty ++ T "." ++ name in
  s ← (if negb (Z.land (m_accessFlags mth) 0x100 =? 0) then
         Ok (s ++ T " (Native method)")
       else
         match (c ← fetch (mem_class m (m_clazz mth));
                fetch (mem_cstr m (c_sourceFile c))) with
         | Ok sourceFile => Ok (s ++ T " (" ++ sourceFile ++ T ")")
         | Raise MemoryError => Ok s
         | Raise e => Raise e
         | Timeout => Timeout
         end);
  Ok (s ++ nl).

(** The lock information printed under the first line of the trace. *)
Definition wait_info (fuel : nat) (m : Target) (thread : Z) : res text :=
  status ← Thread.status m thread;
  if bool_decide (status = T "WAIT") || bool_decide (status = T "TIMED_WAIT")
  then
    mon ← Thread.__getitem__ m thread t_waitMonitor;
    if mon =? 0 then Ok []
    else
      obj ← mon_obj <$> fetch (mem_monitor m mon);
      if obj =? 0 then Ok []
      else
        clazz ← clazz_of m (ObjectRef obj);
        joinThread ← (if clazz =? classJavaLangVMThread (gDvm m)
                      then Some <$> threadFromThreadObject m obj
                      else Ok None);
        _waitMessage m (T "on") obj joinThread
  else if bool_decide (status = T "MONITOR") then
    '(obj, owner) ← _extractMonitorEnterObject fuel m thread;
    _waitMessage m (T "to lock") obj owner
  else Ok [].

(** The [while jfp:] loop of [__str__]; [n] bounds its turns.  [Debug.p]
    only prints and is left out. *)
Fixpoint frames (n : nat) (fuel : nat) (m : Target) (thread : Z)
    (jfp : Z) (first : bool) (s : text) : res text :=
  match n with
  | O => Timeout
  | S n' =>
      if jfp =? 0 then Ok s
      else
        sa ← fetch (mem_savearea m (_saveareaFromFP m jfp));
        let jmethodp := sa_method sa in
        if jmethodp =? 0 then Ok s
        else
          line ← trace_line m jmethodp;
          info ← (if first then wait_info fuel m thread else Ok []);
          frames n' fuel m thread (sa_prevFrame sa) false (s ++ line ++ info)
  end.

Definition __str__ (fuel : nat) (m : Target) (thread_addr : Z) : res text :=
  thread ← Thread.__init__ thread_addr;
  jfp ← Thread.curFrame m thread;
  s ← header m thread;
  frames fuel fuel m thread jfp true s.

End ThreadStackTrace.

(** ** class AllThreadsStackTrace *)

Module AllThreadsStackTrace.

(** [str(x)] where [x.__str__()] is Unicode text: the text is encoded with
    the default codec, which is ASCII. *)
Definition encode_ascii (u : text) : res text :=
  if forallb (fun c => c <? 128) u then Ok u else Raise UnicodeEncodeError.

(** [str(ThreadStackTrace(thread_addr))] *)
Definition block (fuel : nat) (m : Target) (thread_addr : Z) : res text :=
  u ← ThreadStackTrace.__str__ fuel m thread_addr;
  encode_ascii u.

(** The [while thread_addr:] loop of [__str__]; [n] bounds its turns. *)
Fixpoint threads (n : nat) (fuel : nat) (m : Target) (thread_addr : Z)
    (s : text) : res text :=
  match n with
  | O => Timeout
  | S n' =>
      if thread_addr =? 0 then Ok s
      else
        b ← block fuel m thread_addr;
        next ← Thread.__getitem__ m thread_addr t_next;
        threads n' fuel m next (s ++ b ++ nl)
  end.

Definition __str__ (fuel : nat) (m : Target) : res text :=
  threads fuel fuel m (threadList (gDvm m)) [].

End AllThreadsStackTrace.

(** ** class Types

    The cache of pointer types. [gdb.lookup_type] is the debugger's: it
    answers with a type or raises [gdb.error], here [None]. *)

Module Types.

Section Cache.

Variable gdb_type : Type.
Variable lookup_type : string -> option gdb_type.

(** [t.pointer()] *)
Inductive pointer_type : Type := pointer (t : gdb_type).

Definition _pointer (type_name : string) : option pointer_type :=
  pointer <$> lookup_type type_name.

(** [types[key]]: the answer and the cache afterwards. *)
Definition __getitem__ (_types : gmap string pointer_type) (key : string)
    : option pointer_type * gmap string pointer_type :=
  match _types !! key with
  | Some p => (Some p, _types)
  | None =>
      match _pointer key with
      | Some p => (<[key := p]> _types !! key, <[key := p]> _types)
      | None => (None, _types)
      end
  end.

(** [types.cast_p(addr, type_name)]: the address with the type it is cast
    to. *)
Definition cast_p (_types : gmap string pointer_type) (addr : Z)
    (type_name : string)
    : option (Z * pointer_type) * gmap string pointer_type :=
  let '(p, _types') := __getitem__ _types type_name in
  (pair addr <$> p, _types').

End Cache.

End Types.

(** ** class JavaBackTraceCommand

    What [invoke] decides from its arguments: the value of [Debug.enabled]
    it leaves and what it prints. The thread address stays the argument
    text; [int(_, 16)] and the printing are not part of the embedding. *)

Module JavaBackTraceCommand.

Inductive output : Type :=
  | help
  | print_ThreadStackTrace (arg : string)
  | print_AllThreadsStackTrace.

Definition invoke (args : list string) : bool * output :=
  (* init() *)
  let enabled := false in
  if 0 <? Z.of_nat (List.length args) then
    if bool_decide (args !! 0%nat = Some "-h"%string)
       || bool_decide (args !! 0%nat = Some "--help"%string)
    then (enabled, help)
    else
      let '(enabled, args) :=
        if bool_decide (args !! 0%nat = Some "-d"%string)
        then (true, drop 1 args) else (enabled, args) in
      if 1 <? Z.of_nat (List.length args) then (enabled, help)
      else if Z.of_nat (List.length args) =? 1 then
        (enabled, print_ThreadStackTrace (default EmptyString (args !! 0%nat)))
      else (enabled, print_AllThreadsStackTrace)
  else (enabled, print_AllThreadsStackTrace).

End JavaBackTraceCommand.

(** * Vocabulary of the properties

    What the statements below speak of, beside the script's own functions. *)

(** ** Strings *)

(** The code units [offset, offset + length) of the array whose contents
    start at [contents]. *)
Definition code_units (m : Target) (contents offset length : Z) : res (list Z) :=
  mapM (fun i => read_u2 m (contents + 2 * i)) (seqZ offset length).

(** *** UTF-16 as the specification speaks of it

    The encoding form of the Unicode standard, written without reference
    to the codec above. *)

(** The code units of one code point. *)
Definition utf16_encode (c : Z) : list Z :=
  if c <? 0x10000 then [c]
  else [0xD800 + (c - 0x10000) / 0x400; 0xDC00 + (c - 0x10000) mod 0x400].

(** Unicode scalar values: the code points that are not surrogates. *)
Definition scalar (c : Z) : Prop :=
  0 <= c < 0xD800 \/ 0xE000 <= c < 0x110000.

(** [utf16_decoding us t]: [t] is the text formed by decoding the UTF-16
    code units [us], that is, the text of scalar values whose code units,
    one after the other, are [us]. Every unit counts, a unit U+FEFF is the
    character U+FEFF. *)
Definition utf16_decoding (us : list Z) (t : text) : Prop :=
  Forall scalar t /\ List.concat (map utf16_encode t) = us.

(** *** What the codec makes of the units

    Not a specification: the result of [Dvm.decode_utf16] on the bytes of
    the units, told by units. A first unit U+FEFF is taken for the byte
    order mark and left out, a first unit 0xFFFE for the mark of the other
    byte order, after which every unit is read with its bytes swapped. *)

Definition swap16 (u : Z) : Z := Z.lor (Z.shiftl (Z.land u 0xff) 8) (Z.shiftr u 8).

Definition utf16_text (units : list Z) : res text :=
  match units with
  | u :: rest =>
      if u =? 0xFEFF then Dvm.utf16_code_points rest
      else if u =? 0xFFFE then Dvm.utf16_code_points (map swap16 rest)
      else Dvm.utf16_code_points units
  | [] => Ok []
  end.

(** The two bytes of a unit, low byte first. *)
Definition bytes16 (u : Z) : list Z := [Z.land u 0xff; Z.shiftr u 8].

(** ** The wait message *)

(** The parts of the line [_waitMessage] builds: its head with the object's
    address, the description of the object's type, the owner. *)
Definition wait_head (m : Target) (detail : text) (obj : Z) : text :=
  T "  - waiting " ++ detail ++ T " <" ++ value_str m obj ++ T "> ".

Definition type_text (m : Target) (obj : Z) : res text :=
  if obj =? 0 then Ok []
  else
    clazz ← clazz_of m (ObjectRef obj);
    if clazz =? classJavaLangClass (gDvm m) then Ok []
    else
      ty ← Dvm.humanReadableType m (ObjectRef obj);
      Ok (T "(a " ++ ty ++ T ")").

Definition held_by (m : Target) (thread : option Z) : res text :=
  match thread with
  | None => Ok []
  | Some th =>
      name ← Thread.name m th;
      tid ← Thread.__getitem__ m th t_threadId;
      Ok (T " held by tid=" ++ fmt_d tid ++ T " (" ++ name ++ T ")")
  end.

(** ** Termination and fuel *)

(** [total r]: [r] is a value or an exception. *)
Definition total {A} (r : res A) : Prop := r <> Timeout.

(** [refines r r']: [r] ran out of fuel or is [r']. *)
Definition refines {A} (r r' : res A) : Prop := r = Timeout \/ r = r'.

(** [chain_ends m n jfp]: the walk of the frames from [jfp] leaves the loop
    within [n] tests of its condition, at a null frame pointer, at a frame
    whose method is null, or at a save area that cannot be read. *)
Fixpoint chain_ends (m : Target) (n : nat) (jfp : Z) : bool :=
  match n with
  | O => false
  | S n' =>
      if jfp =? 0 then true
      else
        match mem_savearea m (ThreadStackTrace._saveareaFromFP m jfp) with
        | None => true
        | Some sa =>
            if sa_method sa =? 0 then true
            else chain_ends m n' (sa_prevFrame sa)
        end
  end.

(** [list_ends m n a]: the thread list from [a] reaches a null [next], or a
    thread that cannot be read, within [n] tests. *)
Fixpoint list_ends (m : Target) (n : nat) (thread_addr : Z) : bool :=
  match n with
  | O => false
  | S n' =>
      if thread_addr =? 0 then true
      else
        match mem_thread m thread_addr with
        | None => true
        | Some t => list_ends m n' (t_next t)
        end
  end.

(** ** Lists in target memory *)

(** [on_list m a b]: the walk of the thread list from [a] meets the thread
    at [b]. *)
Inductive on_list (m : Target) : Z -> Z -> Prop :=
  | on_list_here (a : Z) (t : ThreadStruct) :
      a <> 0 -> mem_thread m a = Some t -> on_list m a a
  | on_list_next (a : Z) (t : ThreadStruct) (b : Z) :
      a <> 0 -> mem_thread m a = Some t -> on_list m (t_next t) b ->
      on_list m a b.

(** [list_segment m a l b]: the walk of the thread list from [a] passes the
    threads at the addresses [l], in this order, and then stands at [b]. *)
Inductive list_segment (m : Target) : Z -> list Z -> Z -> Prop :=
  | list_segment_nil (a : Z) : list_segment m a [] a
  | list_segment_cons (a : Z) (t : ThreadStruct) (l : list Z) (b : Z) :
      a <> 0 -> mem_thread m a = Some t -> list_segment m (t_next t) l b ->
      list_segment m a (a :: l) b.

(** [thread_list m a l]: from [a] the thread list holds the threads at the
    addresses [l], in this order, and ends in a null [next]. *)
Inductive thread_list (m : Target) : Z -> list Z -> Prop :=
  | thread_list_nil : thread_list m 0 []
  | thread_list_cons (a : Z) (t : ThreadStruct) (l : list Z) :
      a <> 0 -> mem_thread m a = Some t -> thread_list m (t_next t) l ->
      thread_list m a (a :: l).

(** [stack m jfp methods]: the frames from [jfp] have the methods
    [methods], innermost first; below them is a null frame pointer or a
    frame without method. *)
Inductive stack (m : Target) : Z -> list Z -> Prop :=
  | stack_bottom : stack m 0 []
  | stack_break (jfp : Z) (sa : StackSaveArea) :
      jfp <> 0 ->
      mem_savearea m (ThreadStackTrace._saveareaFromFP m jfp) = Some sa ->
      sa_method sa = 0 ->
      stack m jfp []
  | stack_frame (jfp : Z) (sa : StackSaveArea) (methods : list Z) :
      jfp <> 0 ->
      mem_savearea m (ThreadStackTrace._saveareaFromFP m jfp) = Some sa ->
      sa_method sa <> 0 ->
      stack m (sa_prevFrame sa) methods ->
      stack m jfp (sa_method sa :: methods).

(** ** Units in memory *)

(** The units [us] stand in target memory from address [a]. *)
Definition units_stored (m : Target) (a : Z) (us : list Z) : Prop :=
  forall (i : nat) (u : Z), us !! i = Some u -> mem_u2 m (a + 2 * Z.of_nat i) = Some u.

(** ** Field access *)

(** The field kinds of [_field_map]. *)
Definition field_kinds : list string :=
  [ "Boolean"; "Byte"; "Short"; "Char"; "Int"; "Long"; "Float"; "Double";
    "Object" ]%string.

(** ** A thread's block *)

(** The block of a thread: the header, the line of the first frame, the
    lock information, the lines of the other frames. *)
Definition block_text (head : text) (lines : list text) (info : text) : text :=
  match lines with
  | [] => head
  | line :: lines' => head ++ line ++ info ++ List.concat lines'
  end.

(** ** The cache of pointer types *)

(** Every cached pointer type is the one the debugger gives for its key. *)
Definition coherent {gdb_type : Type} (lookup_type : string -> option gdb_type)
    (_types : gmap string (Types.pointer_type gdb_type)) : Prop :=
  forall (key : string) (p : Types.pointer_type gdb_type),
    _types !! key = Some p -> Types._pointer gdb_type lookup_type key = Some p.

(** ** Errors *)

Definition wrong_instruction : exn := JavaBackTraceError "wrong currentPc value".

(** The all-threads loop, started at [a] with [s] collected, has dumped [k]
    threads without error and stands at [b] with [s'] collected. *)
Inductive arrives (fuel : nat) (m : Target) : nat -> Z -> text -> Z -> text -> Prop :=
  | arrives_here (a : Z) (s : text) : arrives fuel m 0 a s a s
  | arrives_next (k : nat) (a : Z) (s : text) (t : ThreadStruct) (block : text)
      (b : Z) (s' : text) :
      a <> 0 ->
      AllThreadsStackTrace.block fuel m a = Ok block ->
      mem_thread m a = Some t ->
      arrives fuel m k (t_next t) (s ++ block ++ nl) b s' ->
      arrives fuel m (S k) a s b s'.

(** ** Concrete targets

    The scene of the specification's end-to-end scenario: thread "main"
    (tid 1, RUNNABLE, frames [Main.run] and [Main.<init>]) followed in the
    thread list by thread "Worker" (tid 2), whose only frame [Worker.work]
    stands on a monitor-enter of an object of class [com/example/Lock]
    thin-locked by thread 1.  *)

Module Scene.

Fixpoint assoc {A} (l : list (Z * A)) (a : Z) : option A :=
  match l with
  | [] => None
  | (k, v) :: l' => if k =? a then Some v else assoc l' a
  end.

Fixpoint assoc2 (l : list (Z * string * Z)) (a : Z) (member : string)
    : option Z :=
  match l with
  | [] => None
  | (k, f, v) :: l' =>
      if (k =? a) && bool_decide (f = member) then Some v else assoc2 l' a member
  end.

(** The 16-bit units of [s] laid out from address [base]. *)
Fixpoint units_at (base : Z) (s : text) : list (Z * Z) :=
  match s with
  | [] => []
  | c :: s' => (base, c) :: units_at (base + 2) s'
  end.

(** The [JValue] slots of a String object at [str] over the array [arr]. *)
Definition string_fields (str arr : Z) (offset count : Z)
    : list (Z * string * Z) :=
  [ (str + 20, "i", count); (str + 16, "i", offset); (str + 8, "l", arr) ]%string.

Definition globals : DvmGlobals :=
  {| threadList := 0x1000;
     classJavaLangClass := 0x9000;
     classJavaLangVMThread := 0x9100;
     offJavaLangThread_name := 24;
     offJavaLangThread_daemon := 28;
     offJavaLangThread_priority := 32;
     offJavaLangVMThread_vmData := 8 |}.

(** [insn]: the instruction word under the Worker's frame; [regs]: the
    register count of [Worker.work]; [slot]: the content of the frame
    slots v2 to v4; [status2]: the Worker's status; [back]: the previous
    frame of [Main.<init>]; [lock]: the lock word of the Lock object;
    [wait2]: the Worker's [waitMonitor]. *)
Definition target (insn regs slot status2 back lock wait2 : Z) : Target :=
  {| gDvm := globals;
     mem_object := assoc
       [ (0xA000, {| o_clazz := 0x9400; o_lock := lock |});
         (0xA100, {| o_clazz := 0x9100; o_lock := 0xD001 |});
         (0xA200, {| o_clazz := 0x9000; o_lock := 0xD005 |}) ];
     mem_class := assoc
       [ (0x9100, {| c_descriptor := 0xC800; c_sourceFile := 0 |});
         (0x9200, {| c_descriptor := 0xC000; c_sourceFile := 0xC100 |});
         (0x9300, {| c_descriptor := 0xC200; c_sourceFile := 0xC300 |});
         (0x9400, {| c_descriptor := 0xC400; c_sourceFile := 0 |}) ];
     mem_method := assoc
       [ (0x6000, {| m_clazz := 0x9200; m_name := 0xC500;
                     m_accessFlags := 0x1; m_registersSize := 3 |});
         (0x6010, {| m_clazz := 0x9200; m_name := 0xC600;
                     m_accessFlags := 0x1; m_registersSize := 1 |});
         (0x6020, {| m_clazz := 0x9300; m_name := 0xC700;
                     m_accessFlags := 0x1; m_registersSize := regs |}) ];
     mem_savearea := assoc
       [ (0x7100 - 20, {| sa_prevFrame := 0x7200; sa_method := 0x6000;
                          sa_currentPc := 0 |});
         (0x7200 - 20, {| sa_prevFrame := back; sa_method := 0x6010;
                          sa_currentPc := 0 |});
         (0x7300 - 20, {| sa_prevFrame := 0; sa_method := 0x6020;
                          sa_currentPc := 0x8000 |}) ];
     mem_monitor := assoc
       [ (0xD000, {| mon_owner := 0; mon_obj := 0xA000 |});
         (0xD100, {| mon_owner := 0x1000; mon_obj := 0xA100 |});
         (0xD200, {| mon_owner := 0; mon_obj := 0xA200 |}) ];
     mem_array := assoc
       [ (0xB100, {| a_length := 4 |}); (0xB300, {| a_length := 6 |}) ];
     mem_thread := assoc
       [ (0x1000, {| t_threadId := 1; t_systemTid := 100; t_status := 1;
                     t_threadObj := 0x5000; t_interpSave := true;
                     t_interpSave_curFrame := 0x7100; t_curFrame := 0;
                     t_waitMonitor := 0; t_next := 0x2000 |});
         (0x2000, {| t_threadId := 2; t_systemTid := 101; t_status := status2;
                     t_threadObj := 0x5100; t_interpSave := true;
                     t_interpSave_curFrame := 0x7300; t_curFrame := 0;
                     t_waitMonitor := wait2; t_next := 0 |}) ];
     mem_jvalue := assoc2
       ([ (0x5000 + 24, "l", 0xB000); (0x5000 + 28, "z", 0);
          (0x5000 + 32, "i", 5);
          (0x5100 + 24, "l", 0xB200); (0x5100 + 28, "z", 1);
          (0x5100 + 32, "i", 5);
          (0xA100 + 8, "i", 0x1000) ]%string
        ++ string_fields 0xB000 0xB100 0 4
        ++ string_fields 0xB200 0xB300 0 6
        ++ string_fields 0xB400 0xB100 2 3);
     mem_u2 := assoc
       ((0x8000, insn) :: units_at (0xB100 + 16) (T "main")
          ++ units_at (0xB300 + 16) (T "Worker"));
     mem_u4 := assoc
       [ (0x7300 + 8, slot); (0x7300 + 12, slot); (0x7300 + 16, slot) ];
     mem_cstr := assoc
       [ (0xC000, T "LMain;"); (0xC100, T "Main.java");
         (0xC200, T "LWorker;"); (0xC300, T "Worker.java");
         (0xC400, T "Lcom/example/Lock;");
         (0xC800, T "Ljava/lang/VMThread;");
         (0xC500, T "run"); (0xC600, T "<init>"); (0xC700, T "work") ];
     sizeof_StackSaveArea := 20;
     offsetof_ArrayObject_contents := 16;
     value_str := fmt_d |}.

(** The scenario as the specification describes it. *)
Definition blocked : Target := target 0x021d 4 0xA000 3 0 8 0.

(** The Worker stands on an instruction that is not monitor-enter. *)
Definition wrong_opcode : Target := target 0x0200 4 0xA000 3 0 8 0.

(** The monitor-enter names register v4 of a method with 4 registers. *)
Definition last_register : Target := target 0x041d 4 0xA000 3 0 8 0.

(** The register v2 that the monitor-enter names holds a null reference. *)
Definition null_object : Target := target 0x021d 4 0 3 0 8 0.

(** The frame of [Main.<init>] links back to the frame of [Main.run]. *)
Definition cycle : Target := target 0x021d 4 0xA000 3 0x7100 8 0.

(** The Worker waits on the VMThread object that wraps thread "main". *)
Definition joining : Target := target 0x021d 4 0xA000 4 0 8 0xD100.


(** [m] with the unit at [a] replaced by [u]. *)
Definition patch_u2 (m : Target) (a u : Z) : Target :=
  {| gDvm := gDvm m;
     mem_object := mem_object m;
     mem_class := mem_class m;
     mem_method := mem_method m;
     mem_savearea := mem_savearea m;
     mem_monitor := mem_monitor m;
     mem_array := mem_array m;
     mem_thread := mem_thread m;
     mem_jvalue := mem_jvalue m;
     mem_u2 := fun b => if b =? a then Some u else mem_u2 m b;
     mem_u4 := mem_u4 m;
     mem_cstr := mem_cstr m;
     sizeof_StackSaveArea := sizeof_StackSaveArea m;
     offsetof_ArrayObject_contents := offsetof_ArrayObject_contents m;
     value_str := value_str m |}.

(** [m] with the thread at [a] replaced by [t]. *)
Definition patch_thread (m : Target) (a : Z) (t : ThreadStruct) : Target :=
  {| gDvm := gDvm m;
     mem_object := mem_object m;
     mem_class := mem_class m;
     mem_method := mem_method m;
     mem_savearea := mem_savearea m;
     mem_monitor := mem_monitor m;
     mem_array := mem_array m;
     mem_thread := fun b => if b =? a then Some t else mem_thread m b;
     mem_jvalue := mem_jvalue m;
     mem_u2 := mem_u2 m;
     mem_u4 := mem_u4 m;
     mem_cstr := mem_cstr m;
     sizeof_StackSaveArea := sizeof_StackSaveArea m;
     offsetof_ArrayObject_contents := offsetof_ArrayObject_contents m;
     value_str := value_str m |}.

(** [m] with the [JValue] member [member] at [a] replaced by [v]. *)
Definition patch_jvalue (m : Target) (a : Z) (member : string) (v : Z) : Target :=
  {| gDvm := gDvm m;
     mem_object := mem_object m;
     mem_class := mem_class m;
     mem_method := mem_method m;
     mem_savearea := mem_savearea m;
     mem_monitor := mem_monitor m;
     mem_array := mem_array m;
     mem_thread := mem_thread m;
     mem_jvalue := fun b f =>
       if (b =? a) && bool_decide (f = member) then Some v else mem_jvalue m b f;
     mem_u2 := mem_u2 m;
     mem_u4 := mem_u4 m;
     mem_cstr := mem_cstr m;
     sizeof_StackSaveArea := sizeof_StackSaveArea m;
     offsetof_ArrayObject_contents := offsetof_ArrayObject_contents m;
     value_str := value_str m |}.

(** Thread "main" is called "m\u00e9in". *)
Definition accented : Target := patch_u2 blocked (0xB100 + 16 + 2) 0xE9.

(** The name of thread "main" starts with U+FEFF: its units are FEFF, "ain". *)
Definition marked : Target := patch_u2 blocked (0xB100 + 16) 0xFEFF.

(** The Worker, still blocked on a monitor, has no frame. *)
Definition no_frame : Target :=
  patch_thread wrong_opcode 0x2000
    {| t_threadId := 2; t_systemTid := 101; t_status := 3;
       t_threadObj := 0x5100; t_interpSave := true;
       t_interpSave_curFrame := 0; t_curFrame := 0;
       t_waitMonitor := 0; t_next := 0 |}.

(** [m] with the object at [a] replaced by [o]. *)
Definition patch_object (m : Target) (a : Z) (o : Object) : Target :=
  {| gDvm := gDvm m;
     mem_object := fun b => if b =? a then Some o else mem_object m b;
     mem_class := mem_class m;
     mem_method := mem_method m;
     mem_savearea := mem_savearea m;
     mem_monitor := mem_monitor m;
     mem_array := mem_array m;
     mem_thread := mem_thread m;
     mem_jvalue := mem_jvalue m;
     mem_u2 := mem_u2 m;
     mem_u4 := mem_u4 m;
     mem_cstr := mem_cstr m;
     sizeof_StackSaveArea := sizeof_StackSaveArea m;
     offsetof_ArrayObject_contents := offsetof_ArrayObject_contents m;
     value_str := value_str m |}.

(** The Lock object and the VMThread object carry the fat lock words
    0xD101 and 0xD107: the monitor at 0xD100, owned by thread "main", with
    two different hash states. *)
Definition inflated : Target :=
  patch_object (target 0x021d 4 0xA000 3 0 0xD101 0) 0xA100
    {| o_clazz := 0x9100; o_lock := 0xD107 |}.

(** The name of thread "main" has the count -1. *)
Definition negative_count : Target := patch_jvalue blocked (0xB000 + 20) "i" (-1).

(** The name of thread "main" has the offset 3 and the count -1. *)
Definition negative_count_inside : Target :=
  patch_jvalue negative_count (0xB000 + 16) "i" 3.

(** The name of thread "main" has no character. *)
Definition unnamed : Target := patch_jvalue blocked (0xB000 + 20) "i" 0.

(** The VMThread object the Worker waits on holds no thread. *)
Definition detached : Target := patch_jvalue joining (0xA100 + 8) "i" 0.


(** A debugger that knows the types [char] and [JValue]. *)
Definition lookup_type (type_name : string) : option string :=
  if bool_decide (type_name = "char"%string)
     || bool_decide (type_name = "JValue"%string)
  then Some type_name else None.

End Scene.

(** * Properties *)

(** ** The scenario of the specification *)

Example humanReadableDescriptor_Thread :
  Dvm.humanReadableDescriptor (T "Ljava/lang/Thread;") = Ok (T "java.lang.Thread").
Proof. vm_compute. reflexivity. Qed.

Example fmt_d_ex : fmt_d 42 = T "42" /\ fmt_d (-7) = T "-7" /\ fmt_d 0 = T "0".
Proof. vm_compute. auto. Qed.

Example field_map_ex : Dvm._field_map !! "Int"%string = Some "i"%string.
Proof. vm_compute. reflexivity. Qed.

Example blocked_dump :
  AllThreadsStackTrace.__str__ 3 Scene.blocked
  = Ok (dquote ++ T "main" ++ dquote ++ T " prio=5 tid=1 RUNNABLE" ++ nl
        ++ T "  | sysTid=100 self=4096" ++ nl
        ++ T "  at Main.run (Main.java)" ++ nl
        ++ T "  at Main.<init> (Main.java)" ++ nl
        ++ nl
        ++ dquote ++ T "Worker" ++ dquote ++ T " deamon prio=5 tid=2 MONITOR" ++ nl
        ++ T "  | sysTid=101 self=8192" ++ nl
        ++ T "  at Worker.work (Worker.java)" ++ nl
        ++ T "  - waiting to lock <40960> (a com.example.Lock) held by tid=1 (main)" ++ nl
        ++ nl).
Proof. vm_compute. reflexivity. Qed.

(** ** Results *)

Lemma bind_Ok {A B} (r : res A) (a : A) (f : A -> res B) :
  r = Ok a -> (r ≫= f) = f a.
Proof. intros ->. reflexivity. Qed.

Lemma bind_Raise {A B} (r : res A) (e : exn) (f : A -> res B) :
  r = Raise e -> (r ≫= f) = Raise e.
Proof. intros ->. reflexivity. Qed.

(** Reduce binds over results that are already known. *)
Ltac res_simpl := cbn [mbind res_bind mret res_ret fmap res_fmap].
Ltac res_simpl_in H := cbn [mbind res_bind mret res_ret fmap res_fmap] in H.

Lemma fetch_Some {A} (o : option A) (a : A) : o = Some a -> fetch o = Ok a.
Proof. intros ->. reflexivity. Qed.

Lemma mapM_cons_Ok {A B} (f : A -> res B) (a : A) (l : list A) (bs : list B) :
  mapM f (a :: l) = Ok bs ->
  exists b bs', f a = Ok b /\ mapM f l = Ok bs' /\ bs = b :: bs'.
Proof.
  cbn [mapM]. destruct (f a) as [ b | | ]; try discriminate. res_simpl.
  destruct (mapM f l) as [ bs' | | ]; try discriminate. res_simpl.
  intros [= <-]. exists b, bs'. auto.
Qed.

(** The three kinds of field the script asks [getFieldP] for. *)
Lemma getFieldP_Int (m : Target) (obj offset : Z) :
  Dvm.getFieldP m obj offset "Int" = fetch (mem_jvalue m (obj + offset) "i").
Proof. reflexivity. Qed.

Lemma getFieldP_Object (m : Target) (obj offset : Z) :
  Dvm.getFieldP m obj offset "Object" = fetch (mem_jvalue m (obj + offset) "l").
Proof. reflexivity. Qed.

Lemma getFieldP_Boolean (m : Target) (obj offset : Z) :
  Dvm.getFieldP m obj offset "Boolean" = fetch (mem_jvalue m (obj + offset) "z").
Proof. reflexivity. Qed.

(** ** Lock words *)

Section LockWord.

Lemma shape_bit (lock : Z) :
  Z.land lock Dvm.LW_SHAPE_MASK = Z.b2z (Z.testbit lock 0).
Proof.
  unfold Dvm.LW_SHAPE_MASK. change 1 with (Z.ones 1).
  rewrite Z.land_ones by lia. rewrite Z.bit0_mod. reflexivity.
Qed.

Lemma shape_thin (lock : Z) :
  Z.testbit lock 0 = false ->
  (Z.land lock Dvm.LW_SHAPE_MASK =? Dvm.LW_SHAPE_THIN) = true.
Proof. intros H. rewrite shape_bit, H. reflexivity. Qed.

Lemma shape_fat (lock : Z) :
  Z.testbit lock 0 = true ->
  (Z.land lock Dvm.LW_SHAPE_MASK =? Dvm.LW_SHAPE_THIN) = false.
Proof. intros H. rewrite shape_bit, H. reflexivity. Qed.

(** The owner field of a lock word, bit by bit. *)
Lemma owner_field_bits (lock i : Z) :
  0 <= i ->
  Z.testbit (Z.land (Z.shiftr lock 3) 0xffff) i
  = Z.testbit lock (i + 3) && (i <? 16).
Proof.
  intros Hi. change 0xffff with (Z.ones 16).
  rewrite Z.land_spec, Z.shiftr_spec by lia.
  destruct (Z.ltb_spec i 16).
  - rewrite Z.ones_spec_low by lia. reflexivity.
  - rewrite Z.ones_spec_high by lia. reflexivity.
Qed.

Lemma small_bits_high (t i : Z) :
  0 <= t < 2 ^ 16 -> 16 <= i -> Z.testbit t i = false.
Proof.
  intros Ht Hi. rewrite <- (Z.mod_small t (2 ^ 16)) by assumption.
  apply Z.mod_pow2_bits_high. lia.
Qed.

(** The monitor address keeps every bit of the lock word from bit 3 up
    and clears bits 0 to 2. *)
Lemma monitor_addr_bits (lock i : Z) :
  0 <= i ->
  Z.testbit (Dvm.monitor_addr lock) i = Z.testbit lock i && (3 <=? i).
Proof.
  intros Hi. unfold Dvm.monitor_addr.
  change (Z.lor (Z.shiftl Dvm.LW_HASH_STATE_MASK Dvm.LW_HASH_STATE_SHIFT)
                Dvm.LW_SHAPE_MASK) with (Z.ones 3).
  rewrite Z.land_spec, Z.lnot_spec by lia.
  destruct (Z.leb_spec 3 i).
  - rewrite Z.ones_spec_high by lia. reflexivity.
  - rewrite Z.ones_spec_low by lia. reflexivity.
Qed.

Lemma monitor_addr_hash_state (l1 l2 : Z) :
  (forall i, 0 <= i -> i <> 1 -> i <> 2 -> Z.testbit l1 i = Z.testbit l2 i) ->
  Dvm.monitor_addr l1 = Dvm.monitor_addr l2.
Proof.
  intros H. apply Z.bits_inj'. intros i Hi.
  rewrite !monitor_addr_bits by assumption.
  destruct (Z.leb_spec 3 i); [ | rewrite !andb_false_r; reflexivity ].
  rewrite H by lia. reflexivity.
Qed.

End LockWord.

(** C5. A thin lock word (bit 0 clear) resolves to the owner thread id
    [(word >> 3) & 0xffff]; in particular a thin word whose owner field,
    bits 3 to 18, holds the bits of a thread id [tid] resolves to [tid]. *)
Theorem lockOwner_thin (m : Target) (obj : Z) (o : Object) :
  mem_object m obj = Some o ->
  Z.testbit (o_lock o) 0 = false ->
  Dvm._lockOwner m obj = Ok (Z.land (Z.shiftr (o_lock o) 3) 0xffff)
  /\ (forall tid : Z,
        0 <= tid < 2 ^ 16 ->
        (forall i, 0 <= i < 16 -> Z.testbit (o_lock o) (i + 3) = Z.testbit tid i) ->
        Dvm._lockOwner m obj = Ok tid).
Proof.
  intros Hobj Hthin.
  assert (Hown : Dvm._lockOwner m obj
                 = Ok (Z.land (Z.shiftr (o_lock o) 3) 0xffff)).
  { unfold Dvm._lockOwner. rewrite (fetch_Some _ _ Hobj). cbn.
    rewrite shape_thin by assumption. reflexivity. }
  split; [ exact Hown | ].
  intros tid Htid Hbits. rewrite Hown. f_equal.
  apply Z.bits_inj'. intros i Hi.
  rewrite (owner_field_bits (o_lock o) i Hi).
  destruct (Z.ltb_spec i 16).
  - rewrite andb_true_r. apply Hbits. lia.
  - rewrite andb_false_r. symmetry. apply small_bits_high; assumption.
Qed.

Lemma lockOwner_thin_witness :
  Dvm._lockOwner Scene.blocked 0xA000 = Ok 1
  /\ Dvm._lockOwner (Scene.target 0x021d 4 0xA000 3 0 (0x80000 + 8 * 513 + 6) 0) 0xA000
     = Ok 513.
Proof.
  split.
  - exact (proj1 (lockOwner_thin Scene.blocked 0xA000
                    {| o_clazz := 0x9400; o_lock := 8 |} eq_refl eq_refl)).
  - exact (proj1 (lockOwner_thin
                    (Scene.target 0x021d 4 0xA000 3 0 (0x80000 + 8 * 513 + 6) 0) 0xA000
                    {| o_clazz := 0x9400; o_lock := 0x80000 + 8 * 513 + 6 |}
                    eq_refl eq_refl)).
Defined.

(** What [_lockOwner] does with a fat lock word: it depends on the word
    through the monitor address only. *)
Lemma lockOwner_fat (m : Target) (obj : Z) (o : Object) :
  mem_object m obj = Some o ->
  Z.testbit (o_lock o) 0 = true ->
  Dvm._lockOwner m obj
  = (mon ← fetch (mem_monitor m (Dvm.monitor_addr (o_lock o)));
     if mon_owner mon =? 0 then Ok 0
     else t_threadId <$> fetch (mem_thread m (mon_owner mon))).
Proof.
  intros Hobj Hfat. unfold Dvm._lockOwner.
  rewrite (fetch_Some _ _ Hobj). cbn.
  rewrite shape_fat by assumption. reflexivity.
Qed.

(** C6. Two fat lock words (bit 0 set) that differ in the hash-state field
    (bits 1 and 2) only lead to the same monitor address, and [_lockOwner]
    reads the monitor at that address for both: the owner it returns is the
    thread id of the thread the monitor's [owner] field points to, the
    same for both words, and the read of an unreadable monitor or owner
    fails for both. A fat lock word whose monitor has a null owner resolves
    to no owner: thread id 0 from [_lockOwner], [None] from
    [getObjectLockHolder], and no exception. *)
Theorem lockOwner_fat_hash_state (m : Target) (obj1 obj2 : Z) (o1 o2 : Object) :
  mem_object m obj1 = Some o1 ->
  mem_object m obj2 = Some o2 ->
  Z.testbit (o_lock o1) 0 = true ->
  Z.testbit (o_lock o2) 0 = true ->
  (forall i, 0 <= i -> i <> 1 -> i <> 2 ->
             Z.testbit (o_lock o1) i = Z.testbit (o_lock o2) i) ->
  Dvm.monitor_addr (o_lock o1) = Dvm.monitor_addr (o_lock o2)
  /\ Dvm._lockOwner m obj1 = Dvm._lockOwner m obj2
  /\ (forall fuel, Dvm.getObjectLockHolder fuel m obj1
                   = Dvm.getObjectLockHolder fuel m obj2)
  /\ (forall mon, mem_monitor m (Dvm.monitor_addr (o_lock o1)) = Some mon ->
                  mon_owner mon = 0 ->
                  Dvm._lockOwner m obj1 = Ok 0
                  /\ forall fuel, Dvm.getObjectLockHolder fuel m obj1 = Ok None)
  /\ (forall (mon : Monitor) (t : ThreadStruct),
        mem_monitor m (Dvm.monitor_addr (o_lock o1)) = Some mon ->
        mon_owner mon <> 0 ->
        mem_thread m (mon_owner mon) = Some t ->
        Dvm._lockOwner m obj1 = Ok (t_threadId t)
        /\ Dvm._lockOwner m obj2 = Ok (t_threadId t)
        /\ (t_threadId t <> 0 ->
            forall fuel, Dvm.getObjectLockHolder fuel m obj1
                         = Dvm.getThreadbyThreadId fuel m (t_threadId t)))
  /\ (mem_monitor m (Dvm.monitor_addr (o_lock o1)) = None ->
      Dvm._lockOwner m obj1 = Raise MemoryError
      /\ Dvm._lockOwner m obj2 = Raise MemoryError)
  /\ (forall mon : Monitor,
        mem_monitor m (Dvm.monitor_addr (o_lock o1)) = Some mon ->
        mon_owner mon <> 0 ->
        mem_thread m (mon_owner mon) = None ->
        Dvm._lockOwner m obj1 = Raise MemoryError
        /\ Dvm._lockOwner m obj2 = Raise MemoryError).
Proof.
  intros Hobj1 Hobj2 Hfat1 Hfat2 Hbits.
  pose proof (monitor_addr_hash_state _ _ Hbits) as Haddr.
  assert (Hown : Dvm._lockOwner m obj1 = Dvm._lockOwner m obj2).
  { rewrite (lockOwner_fat m obj1 o1), (lockOwner_fat m obj2 o2) by assumption.
    rewrite Haddr. reflexivity. }
  split; [ exact Haddr | ]. split; [ exact Hown | ].
  split.
  { intros fuel. unfold Dvm.getObjectLockHolder. rewrite Hown. reflexivity. }
  rewrite <- Hown. rewrite (lockOwner_fat m obj1 o1) by assumption.
  split; [ | split; [ | split ] ].
  - intros mon Hmon Hnull. split.
    + rewrite (fetch_Some _ _ Hmon). cbn. rewrite Hnull. reflexivity.
    + intros fuel. unfold Dvm.getObjectLockHolder.
      rewrite (lockOwner_fat m obj1 o1) by assumption.
      rewrite (fetch_Some _ _ Hmon). cbn. rewrite Hnull. reflexivity.
  - intros mon t Hmon Howner Ht.
    assert (Htid : (mon ← fetch (mem_monitor m (Dvm.monitor_addr (o_lock o1)));
                    if mon_owner mon =? 0 then Ok 0
                    else t_threadId <$> fetch (mem_thread m (mon_owner mon)))
                   = Ok (t_threadId t)).
    { rewrite (fetch_Some _ _ Hmon). res_simpl.
      rewrite (proj2 (Z.eqb_neq _ _) Howner), (fetch_Some _ _ Ht). reflexivity. }
    split; [ exact Htid | ]. split; [ exact Htid | ].
    intros Hid fuel. unfold Dvm.getObjectLockHolder.
    rewrite (lockOwner_fat m obj1 o1) by assumption.
    rewrite Htid. res_simpl. rewrite (proj2 (Z.eqb_neq _ _) Hid). reflexivity.
  - intros Hmon. rewrite Hmon. split; reflexivity.
  - intros mon Hmon Howner Ht. rewrite (fetch_Some _ _ Hmon). res_simpl.
    rewrite (proj2 (Z.eqb_neq _ _) Howner), Ht. split; reflexivity.
Qed.

(** 0xD001 and 0xD005 differ in bit 2 only. *)
Lemma bits_D001_D005 (i : Z) :
  0 <= i -> i <> 1 -> i <> 2 -> Z.testbit 0xD001 i = Z.testbit 0xD005 i.
Proof.
  intros Hi _ H2. change 0xD005 with (Z.lxor 0xD001 (2 ^ 2)).
  rewrite Z.lxor_spec, (Z.pow2_bits_false 2 i) by lia.
  symmetry. apply xorb_false_r.
Qed.

(** 0xD101 and 0xD107 differ in the bits 1 and 2 only. *)
Lemma bits_D101_D107 (i : Z) :
  0 <= i -> i <> 1 -> i <> 2 -> Z.testbit 0xD101 i = Z.testbit 0xD107 i.
Proof.
  intros Hi H1 H2. change 0xD107 with (Z.lxor 0xD101 6).
  rewrite Z.lxor_spec.
  assert (H6 : Z.testbit 6 i = false).
  { destruct (Z.eq_dec i 0) as [ -> | H0 ]; [ reflexivity | ].
    apply Z.bits_above_log2; [ lia | ]. change (Z.log2 6) with 2. lia. }
  rewrite H6. symmetry. apply xorb_false_r.
Qed.

Lemma lockOwner_fat_hash_state_witness :
  (Dvm.monitor_addr 0xD001 = Dvm.monitor_addr 0xD005
   /\ Dvm._lockOwner Scene.blocked 0xA100 = Dvm._lockOwner Scene.blocked 0xA200
   /\ Dvm._lockOwner Scene.blocked 0xA100 = Ok 0
   /\ Dvm.getObjectLockHolder 0 Scene.blocked 0xA100 = Ok None)
  /\ (Dvm.monitor_addr 0xD101 = Dvm.monitor_addr 0xD107
      /\ Dvm._lockOwner Scene.inflated 0xA000 = Ok 1
      /\ Dvm._lockOwner Scene.inflated 0xA100 = Ok 1).
Proof.
  split.
  - pose proof (lockOwner_fat_hash_state Scene.blocked 0xA100 0xA200
                  {| o_clazz := 0x9100; o_lock := 0xD001 |}
                  {| o_clazz := 0x9000; o_lock := 0xD005 |}
                  eq_refl eq_refl eq_refl eq_refl bits_D001_D005)
      as (Haddr & Hown & _ & Hnull & _).
    destruct (Hnull {| mon_owner := 0; mon_obj := 0xA000 |} eq_refl eq_refl)
      as [Hzero Hnone].
    exact (conj Haddr (conj Hown (conj Hzero (Hnone O)))).
  - pose proof (lockOwner_fat_hash_state Scene.inflated 0xA000 0xA100
                  {| o_clazz := 0x9400; o_lock := 0xD101 |}
                  {| o_clazz := 0x9100; o_lock := 0xD107 |}
                  eq_refl eq_refl eq_refl eq_refl bits_D101_D107)
      as (Haddr & _ & _ & _ & Howner & _).
    destruct (Howner {| mon_owner := 0x1000; mon_obj := 0xA100 |}
                {| t_threadId := 1; t_systemTid := 100; t_status := 1;
                   t_threadObj := 0x5000; t_interpSave := true;
                   t_interpSave_curFrame := 0x7100; t_curFrame := 0;
                   t_waitMonitor := 0; t_next := 0x2000 |}
                eq_refl ltac:(discriminate) eq_refl) as (H1 & H2 & _).
    exact (conj Haddr (conj H1 H2)).
Defined.

(** ** Descriptors *)

(** [desc[:-1]] of a text of at least two characters. *)
Lemma descriptor_body (c last : Z) (body : text) :
  removelast (c :: body ++ [last]) = c :: body.
Proof. rewrite app_comm_cons. apply removelast_last. Qed.

Lemma humanReadableDescriptor_cons (c last : Z) (body : text) :
  Dvm.humanReadableDescriptor (c :: body ++ [last])
  = Ok (replace "/" "." (if c =? ord "L" then body else c :: body)).
Proof.
  unfold Dvm.humanReadableDescriptor. rewrite descriptor_body. reflexivity.
Qed.

(** C7. On a descriptor [c :: body] followed by [;] the formatter drops the
    [;], drops [c] when it is [L], and turns every [/] of what is left into
    [.]; the descriptors of String and Object give [java.lang.String] and
    [java.lang.Object]. *)
Theorem humanReadableDescriptor_format :
  (forall (c : Z) (body : text),
      Dvm.humanReadableDescriptor (c :: body ++ T ";")
      = Ok (replace "/" "." (if c =? ord "L" then body else c :: body)))
  /\ (forall s : text, ~ In (ord "/") (replace "/" "." s))
  /\ Dvm.humanReadableDescriptor (T "Ljava/lang/String;") = Ok (T "java.lang.String")
  /\ Dvm.humanReadableDescriptor (T "Ljava/lang/Object;") = Ok (T "java.lang.Object").
Proof.
  split; [ | split; [ | split; reflexivity ] ].
  - intros c body. apply humanReadableDescriptor_cons.
  - intros s. unfold replace. rewrite in_map_iff. intros (c & Hc & _).
    destruct (Z.eqb_spec c (ord "/")) as [ | Hne ]; [ discriminate Hc | ].
    apply Hne. exact Hc.
Qed.

(** C9. The formatter drops the last character whatever it is and then
    reads the first character of the rest: the empty text and every text of
    one character, [;] among them, raise [IndexError]; a longer text loses
    its last character, [;] or not. *)
Theorem humanReadableDescriptor_unchecked :
  Dvm.humanReadableDescriptor [] = Raise IndexError
  /\ (forall c : Z, Dvm.humanReadableDescriptor [c] = Raise IndexError)
  /\ Dvm.humanReadableDescriptor (T ";") = Raise IndexError
  /\ (forall (c last : Z) (body : text),
        Dvm.humanReadableDescriptor (c :: body ++ [last])
        = Ok (replace "/" "." (if c =? ord "L" then body else c :: body)))
  /\ Dvm.humanReadableDescriptor (T "Ljava/lang/String") = Ok (T "java.lang.Strin").
Proof.
  repeat split; try reflexivity.
  intros c last body. apply humanReadableDescriptor_cons.
Qed.

(** ** Strings *)

Section Utf16.

Lemma read_u2_range (m : Target) (a u : Z) :
  read_u2 m a = Ok u -> 0 <= u <= 0xffff.
Proof.
  unfold read_u2. destruct (mem_u2 m a) as [v | ]; [ | discriminate ].
  cbn. intros [= <-]. change (Z.land v 0xffff) with (Z.land v (Z.ones 16)).
  rewrite Z.land_ones by lia.
  change (2 ^ 16) with 65536.
  pose proof (Z.mod_pos_bound v 65536 ltac:(lia)). lia.
Qed.

Lemma pack_H_range (u : Z) : 0 <= u <= 0xffff -> Dvm.pack_H u = Ok (bytes16 u).
Proof.
  intros [Hlo Hhi]. unfold Dvm.pack_H.
  destruct (Z.leb_spec 0 u); [ | lia ].
  destruct (Z.leb_spec u 0xffff); [ | lia ].
  reflexivity.
Qed.

Lemma low_byte (u : Z) : Z.land u 0xff = u mod 256.
Proof. change 0xff with (Z.ones 8). rewrite Z.land_ones by lia. reflexivity. Qed.

Lemma high_byte (u : Z) : Z.shiftr u 8 = u / 256.
Proof. rewrite Z.shiftr_div_pow2 by lia. reflexivity. Qed.

Lemma unit_of_bytes (u : Z) :
  Z.lor (Z.shiftl (Z.shiftr u 8) 8) (Z.land u 0xff) = u.
Proof.
  apply Z.bits_inj'. intros i Hi.
  change 0xff with (Z.ones 8).
  rewrite Z.lor_spec, Z.land_spec.
  destruct (Z.ltb_spec i 8).
  - rewrite Z.shiftl_spec_low, Z.ones_spec_low by lia.
    cbn. apply andb_true_r.
  - rewrite Z.shiftl_spec, Z.shiftr_spec, Z.ones_spec_high by lia.
    rewrite andb_false_r, orb_false_r. f_equal. lia.
Qed.

Lemma units_little_endian (us : list Z) :
  Dvm.utf16_units false (List.concat (map bytes16 us)) = Ok us.
Proof.
  induction us as [ | u us IH ]; [ reflexivity | ].
  cbn [map List.concat bytes16 app Dvm.utf16_units].
  rewrite IH. cbn. rewrite unit_of_bytes. reflexivity.
Qed.

Lemma units_big_endian (us : list Z) :
  Dvm.utf16_units true (List.concat (map bytes16 us)) = Ok (map swap16 us).
Proof.
  induction us as [ | u us IH ]; [ reflexivity | ].
  cbn [map List.concat bytes16 app Dvm.utf16_units].
  rewrite IH. reflexivity.
Qed.

Lemma bom_little_endian (u : Z) :
  (Z.land u 0xff =? 0xFF) && (Z.shiftr u 8 =? 0xFE) = (u =? 0xFEFF).
Proof.
  rewrite low_byte, high_byte.
  destruct (Z.eqb_spec u 0xFEFF) as [-> | Hne]; [ reflexivity | ].
  destruct (Z.eqb_spec (u mod 256) 0xFF); [ | reflexivity ].
  destruct (Z.eqb_spec (u / 256) 0xFE); [ | reflexivity ].
  exfalso. pose proof (Z.div_mod u 256 ltac:(lia)). lia.
Qed.

Lemma bom_big_endian (u : Z) :
  (Z.land u 0xff =? 0xFE) && (Z.shiftr u 8 =? 0xFF) = (u =? 0xFFFE).
Proof.
  rewrite low_byte, high_byte.
  destruct (Z.eqb_spec u 0xFFFE) as [-> | Hne]; [ reflexivity | ].
  destruct (Z.eqb_spec (u mod 256) 0xFE); [ | reflexivity ].
  destruct (Z.eqb_spec (u / 256) 0xFF); [ | reflexivity ].
  exfalso. pose proof (Z.div_mod u 256 ltac:(lia)). lia.
Qed.

(** Packing units into bytes and decoding the bytes is decoding the
    units. *)
Lemma decode_utf16_bytes16 (us : list Z) :
  Dvm.decode_utf16 (List.concat (map bytes16 us)) = utf16_text us.
Proof.
  destruct us as [ | u us ]; [ reflexivity | ].
  unfold Dvm.decode_utf16, utf16_text.
  cbn [map List.concat bytes16 app].
  rewrite bom_little_endian, bom_big_endian.
  destruct (u =? 0xFEFF).
  - rewrite units_little_endian. reflexivity.
  - destruct (u =? 0xFFFE).
    + rewrite units_big_endian. reflexivity.
    + change (Z.land u 0xff :: Z.shiftr u 8 :: List.concat (map bytes16 us))
        with (List.concat (map bytes16 (u :: us))).
      rewrite units_little_endian. reflexivity.
Qed.

Example utf16_text_ascii : utf16_text (T "main") = Ok (T "main").
Proof. reflexivity. Qed.

Example utf16_text_surrogates : utf16_text [0xD83D; 0xDE00] = Ok [0x1F600].
Proof. reflexivity. Qed.

Example utf16_text_mark : utf16_text (0xFEFF :: T "main") = Ok (T "main").
Proof. reflexivity. Qed.

Example utf16_text_lone_surrogate : utf16_text [0xDC00] = Raise UnicodeDecodeError.
Proof. reflexivity. Qed.

(** The [for] loop reads the units one after the other and packs each. *)
Lemma read_utf16_list_units (m : Target) (contents : Z) (n : nat) (offset : Z) :
  Dvm.read_utf16_list m n (contents + 2 * offset)
  = (us ← code_units m contents offset (Z.of_nat n); Ok (map bytes16 us)).
Proof.
  revert offset. induction n as [ | n IH ]; intros offset; [ reflexivity | ].
  unfold code_units. rewrite seqZ_cons by lia.
  cbn [Dvm.read_utf16_list mapM].
  destruct (read_u2 m (contents + 2 * offset)) as [ u | e | ] eqn:Hu;
    [ | reflexivity | reflexivity ].
  cbn. rewrite (pack_H_range u (read_u2_range _ _ _ Hu)). cbn.
  replace (contents + 2 * offset + 2) with (contents + 2 * Z.succ offset) by lia.
  rewrite IH. unfold code_units.
  replace (Z.pred (Z.of_nat (S n))) with (Z.of_nat n) by lia.
  destruct (mapM _ (seqZ (Z.succ offset) (Z.of_nat n))); reflexivity.
Qed.

End Utf16.

Section Utf16RoundTrip.

Lemma land_ones_small (n u : Z) : 0 <= n -> 0 <= u < 2 ^ n -> Z.land u (Z.ones n) = u.
Proof. intros Hn Hu. rewrite Z.land_ones by assumption. apply Z.mod_small, Hu. Qed.

Lemma bits_above (n u i : Z) : 0 <= n -> 0 <= u < 2 ^ n -> n <= i -> Z.testbit u i = false.
Proof.
  intros Hn Hu Hi. rewrite <- (Z.mod_small u (2 ^ n)) by assumption.
  apply Z.mod_pow2_bits_high. lia.
Qed.

(** Two fields that do not overlap add up. *)
Lemma lor_shiftl_add (n q r : Z) :
  0 <= n -> 0 <= r < 2 ^ n -> Z.lor (Z.shiftl q n) r = q * 2 ^ n + r.
Proof.
  intros Hn Hr.
  assert (Hland : Z.land (Z.shiftl q n) r = 0).
  { apply Z.bits_inj'. intros i Hi. rewrite Z.land_spec, Z.bits_0.
    destruct (Z.lt_ge_cases i n).
    - rewrite Z.shiftl_spec_low by lia. reflexivity.
    - rewrite (bits_above n r i) by lia. apply andb_false_r. }
  pose proof (Z.add_lor_land (Z.shiftl q n) r) as Hadd.
  rewrite Hland in Hadd. rewrite Z.add_0_r in Hadd. rewrite Hadd.
  rewrite Z.shiftl_mul_pow2 by lia. reflexivity.
Qed.

Lemma surrogates_combine (c : Z) :
  0x10000 <= c < 0x110000 ->
  Z.lor (Z.shiftl (Z.land (0xD800 + (c - 0x10000) / 0x400) 0x3FF) 10)
        (Z.land (0xDC00 + (c - 0x10000) mod 0x400) 0x3FF)
  + 0x10000 = c.
Proof.
  intros Hc.
  pose proof (Z.div_mod (c - 0x10000) 0x400 ltac:(lia)) as Hdm.
  pose proof (Z.mod_pos_bound (c - 0x10000) 0x400 ltac:(lia)) as Hr.
  assert (Hq : 0 <= (c - 0x10000) / 0x400 < 0x400).
  { split; [ apply Z.div_pos; lia | apply Z.div_lt_upper_bound; lia ]. }
  change 0x3FF with (Z.ones 10). rewrite !Z.land_ones by lia.
  change (2 ^ 10) with 1024.
  replace ((0xD800 + (c - 0x10000) / 0x400) mod 1024) with ((c - 0x10000) / 0x400).
  2:{ replace (0xD800 + (c - 0x10000) / 0x400)
        with ((c - 0x10000) / 0x400 + 54 * 1024) by lia.
      rewrite Z.mod_add by lia. symmetry. apply Z.mod_small. lia. }
  replace ((0xDC00 + (c - 0x10000) mod 0x400) mod 1024) with ((c - 0x10000) mod 0x400).
  2:{ replace (0xDC00 + (c - 0x10000) mod 0x400)
        with ((c - 0x10000) mod 0x400 + 55 * 1024) by lia.
      rewrite Z.mod_add by lia. symmetry. apply Z.mod_small. lia. }
  rewrite lor_shiftl_add by (change (2 ^ 10) with 1024; lia).
  change (2 ^ 10) with 1024. lia.
Qed.

(** Decoding the units of scalar values gives the scalar values back. *)
Lemma utf16_code_points_encode (t : text) :
  Forall scalar t ->
  Dvm.utf16_code_points (List.concat (map utf16_encode t)) = Ok t.
Proof.
  induction 1 as [ | c t Hc _ IH ]; [ reflexivity | ].
  cbn [map List.concat]. unfold utf16_encode at 1.
  destruct (Z.ltb_spec c 0x10000) as [ Hbmp | Hsup ].
  - cbn [app Dvm.utf16_code_points].
    assert (Hhigh : Dvm.is_high_surrogate c = false).
    { unfold Dvm.is_high_surrogate, scalar in *.
      destruct (Z.leb_spec 0xD800 c), (Z.leb_spec c 0xDBFF); try reflexivity; lia. }
    assert (Hlow : Dvm.is_low_surrogate c = false).
    { unfold Dvm.is_low_surrogate, scalar in *.
      destruct (Z.leb_spec 0xDC00 c), (Z.leb_spec c 0xDFFF); try reflexivity; lia. }
    rewrite Hhigh, Hlow, IH. reflexivity.
  - assert (Hrange : 0x10000 <= c < 0x110000) by (unfold scalar in Hc; lia).
    pose proof (Z.mod_pos_bound (c - 0x10000) 0x400 ltac:(lia)) as Hr.
    assert (Hq : 0 <= (c - 0x10000) / 0x400 < 0x400).
    { split; [ apply Z.div_pos; lia | apply Z.div_lt_upper_bound; lia ]. }
    cbn [app Dvm.utf16_code_points].
    assert (Hhigh : Dvm.is_high_surrogate (0xD800 + (c - 0x10000) / 0x400) = true).
    { unfold Dvm.is_high_surrogate.
      destruct (Z.leb_spec 0xD800 (0xD800 + (c - 0x10000) / 0x400)); [ | lia ].
      destruct (Z.leb_spec (0xD800 + (c - 0x10000) / 0x400) 0xDBFF); [ | lia ].
      reflexivity. }
    assert (Hlow : Dvm.is_low_surrogate (0xDC00 + (c - 0x10000) mod 0x400) = true).
    { unfold Dvm.is_low_surrogate.
      destruct (Z.leb_spec 0xDC00 (0xDC00 + (c - 0x10000) mod 0x400)); [ | lia ].
      destruct (Z.leb_spec (0xDC00 + (c - 0x10000) mod 0x400) 0xDFFF); [ | lia ].
      reflexivity. }
    rewrite Hhigh, Hlow, IH. res_simpl.
    rewrite (surrogates_combine c Hrange). reflexivity.
Qed.

Lemma utf16_encode_range (t : text) :
  Forall scalar t ->
  Forall (fun u => 0 <= u < 2 ^ 16) (List.concat (map utf16_encode t)).
Proof.
  induction 1 as [ | c t Hc _ IH ]; [ constructor | ].
  cbn [map List.concat]. apply Forall_app. split; [ | exact IH ].
  unfold utf16_encode, scalar in *. change (2 ^ 16) with 65536.
  destruct (Z.ltb_spec c 0x10000).
  - repeat constructor; lia.
  - pose proof (Z.mod_pos_bound (c - 0x10000) 0x400 ltac:(lia)).
    assert (0 <= (c - 0x10000) / 0x400 < 0x400)
      by (split; [ apply Z.div_pos; lia | apply Z.div_lt_upper_bound; lia ]).
    repeat constructor; lia.
Qed.

Lemma read_u2_stored (m : Target) (a u : Z) :
  mem_u2 m a = Some u -> 0 <= u < 2 ^ 16 -> read_u2 m a = Ok u.
Proof.
  intros Ha Hu. unfold read_u2. rewrite Ha. cbn [fetch]. res_simpl.
  change 0xffff with (Z.ones 16). rewrite (land_ones_small 16 u) by lia.
  reflexivity.
Qed.

(** Units that stand in memory are what [code_units] reads. *)
Lemma code_units_stored (m : Target) (contents : Z) (us : list Z) (offset : Z) :
  Forall (fun u => 0 <= u < 2 ^ 16) us ->
  units_stored m (contents + 2 * offset) us ->
  code_units m contents offset (Z.of_nat (List.length us)) = Ok us.
Proof.
  intros Hrange. revert offset.
  induction Hrange as [ | u us Hu _ IH ]; intros offset Hstored; [ reflexivity | ].
  unfold code_units. rewrite seqZ_cons by (cbn [List.length]; lia).
  cbn [mapM]. cbv beta.
  pose proof (Hstored 0%nat u eq_refl) as H0.
  replace (contents + 2 * offset + 2 * Z.of_nat 0) with (contents + 2 * offset)
    in H0 by lia.
  rewrite (read_u2_stored m _ u H0 Hu). res_simpl.
  replace (Z.pred (Z.of_nat (List.length (u :: us)))) with (Z.of_nat (List.length us))
    by (cbn [List.length]; lia).
  fold (code_units m contents (Z.succ offset) (Z.of_nat (List.length us))).
  rewrite IH; [ reflexivity | ].
  intros i v Hi. pose proof (Hstored (S i) v Hi) as HS.
  replace (contents + 2 * Z.succ offset + 2 * Z.of_nat i)
    with (contents + 2 * offset + 2 * Z.of_nat (S i)) by lia.
  exact HS.
Qed.

(** The unsigned comparison, for numbers in the range of a [u4]. *)
Lemma as_u4_small (v : Z) : 0 <= v < 2 ^ 32 -> as_u4 v = v.
Proof.
  intros Hv. unfold as_u4. change 0xffffffff with (Z.ones 32).
  apply land_ones_small; [ lia | exact Hv ].
Qed.


Lemma as_u4_le (x y : Z) : 0 <= x <= y -> y < 2 ^ 32 -> as_u4 x <= as_u4 y.
Proof. intros Hx Hy. rewrite !as_u4_small by lia. lia. Qed.

(** What [createCstrFromString] does with a String whose fields and array
    header can be read. *)
Lemma createCstrFromString_fields
    (m : Target) (s length offset chars : Z) (arr : ArrayObject) :
  s <> 0 ->
  mem_jvalue m (s + Dvm.STRING_FIELDOFF_COUNT) "i" = Some length ->
  mem_jvalue m (s + Dvm.STRING_FIELDOFF_OFFSET) "i" = Some offset ->
  mem_jvalue m (s + Dvm.STRING_FIELDOFF_VALUE) "l" = Some chars ->
  mem_array m chars = Some arr ->
  Dvm.createCstrFromString m s
  = if as_u4 (offset + length) <=? as_u4 (a_length arr) then
      units ← code_units m (chars + offsetof_ArrayObject_contents m) offset length;
      utf16_text units
    else Raise AssertionError.
Proof.
  intros Hs Hlen Hoff Hchars Harr.
  unfold Dvm.createCstrFromString.
  rewrite (proj2 (Z.eqb_neq s 0) Hs).
  rewrite !getFieldP_Int, getFieldP_Object.
  rewrite Hlen, Hoff, Hchars. cbn [fetch]. res_simpl. rewrite Harr.
  cbn [fetch]. res_simpl.
  destruct (as_u4 (offset + length) <=? as_u4 (a_length arr)); [ | reflexivity ].
  cbn [negb]. rewrite read_utf16_list_units.
  assert (Hseq : code_units m (chars + offsetof_ArrayObject_contents m) offset
                   (Z.of_nat (Z.to_nat length))
                 = code_units m (chars + offsetof_ArrayObject_contents m) offset length).
  { unfold code_units, seqZ. rewrite Nat2Z.id. reflexivity. }
  rewrite Hseq. clear Hseq.
  destruct (code_units m (chars + offsetof_ArrayObject_contents m) offset length)
    as [ us | e | ]; try reflexivity.
  res_simpl. apply decode_utf16_bytes16.
Qed.

(** What [createCstrFromString] returns for a string within its array. *)
Lemma createCstrFromString_units
    (m : Target) (s length offset chars : Z) (arr : ArrayObject) :
  s <> 0 ->
  mem_jvalue m (s + Dvm.STRING_FIELDOFF_COUNT) "i" = Some length ->
  mem_jvalue m (s + Dvm.STRING_FIELDOFF_OFFSET) "i" = Some offset ->
  mem_jvalue m (s + Dvm.STRING_FIELDOFF_VALUE) "l" = Some chars ->
  mem_array m chars = Some arr ->
  as_u4 (offset + length) <= as_u4 (a_length arr) ->
  Dvm.createCstrFromString m s
  = (units ← code_units m (chars + offsetof_ArrayObject_contents m) offset length;
     utf16_text units).
Proof.
  intros Hs Hlen Hoff Hchars Harr Hbound.
  rewrite (createCstrFromString_fields m s length offset chars arr
             Hs Hlen Hoff Hchars Harr).
  rewrite (proj2 (Z.leb_le _ _) Hbound). reflexivity.
Qed.

End Utf16RoundTrip.

Section Utf16Decode.

Lemma land_3FF_high (u : Z) :
  0xD800 <= u <= 0xDBFF -> Z.land u 0x3FF = u - 0xD800.
Proof.
  intros Hu. change 0x3FF with (Z.ones 10). rewrite Z.land_ones by lia.
  change (2 ^ 10) with 1024.
  replace u with ((u - 0xD800) + 54 * 1024) at 1 by lia.
  rewrite Z.mod_add by lia. apply Z.mod_small. lia.
Qed.

Lemma land_3FF_low (u : Z) :
  0xDC00 <= u <= 0xDFFF -> Z.land u 0x3FF = u - 0xDC00.
Proof.
  intros Hu. change 0x3FF with (Z.ones 10). rewrite Z.land_ones by lia.
  change (2 ^ 10) with 1024.
  replace u with ((u - 0xDC00) + 55 * 1024) at 1 by lia.
  rewrite Z.mod_add by lia. apply Z.mod_small. lia.
Qed.

Lemma surrogates_split (u u2 : Z) :
  0xD800 <= u <= 0xDBFF -> 0xDC00 <= u2 <= 0xDFFF ->
  let c := Z.lor (Z.shiftl (Z.land u 0x3FF) 10) (Z.land u2 0x3FF) + 0x10000 in
  0x10000 <= c < 0x110000 /\ utf16_encode c = [u; u2].
Proof.
  intros Hu Hu2. cbv zeta.
  rewrite (land_3FF_high u Hu), (land_3FF_low u2 Hu2).
  rewrite lor_shiftl_add by (change (2 ^ 10) with 1024; lia).
  change (2 ^ 10) with 1024.
  split; [ lia | ].
  unfold utf16_encode.
  destruct (Z.ltb_spec ((u - 0xD800) * 1024 + (u2 - 0xDC00) + 0x10000) 0x10000);
    [ lia | ].
  replace ((u - 0xD800) * 1024 + (u2 - 0xDC00) + 0x10000 - 0x10000)
    with ((u2 - 0xDC00) + (u - 0xD800) * 1024) by lia.
  change 0x400 with 1024.
  rewrite Z.div_add, Z.mod_add by lia.
  rewrite Z.div_small, Z.mod_small by lia.
  f_equal; [ lia | f_equal; lia ].
Qed.

(** The text that decoding gives consists of scalar values, and encoding
    it gives the units back. *)
Lemma utf16_code_points_decode (n : nat) :
  forall (us : list Z) (t : text),
    (List.length us <= n)%nat ->
    Forall (fun u => 0 <= u < 2 ^ 16) us ->
    Dvm.utf16_code_points us = Ok t ->
    Forall scalar t /\ List.concat (map utf16_encode t) = us.
Proof.
  induction n as [ | n IH ]; intros us t Hlen Hrange Hdec.
  - destruct us; [ | cbn in Hlen; lia ].
    injection Hdec as <-. split; [ constructor | reflexivity ].
  - destruct us as [ | u rest ].
    { injection Hdec as <-. split; [ constructor | reflexivity ]. }
    inversion Hrange as [ | ? ? Hu Hrest ]; subst.
    change (2 ^ 16) with 65536 in Hu.
    cbn [Dvm.utf16_code_points] in Hdec.
    unfold Dvm.is_high_surrogate, Dvm.is_low_surrogate in Hdec.
    destruct (Z.leb_spec 0xD800 u) as [ Hlo | Hlo ];
      destruct (Z.leb_spec u 0xDBFF) as [ Hhi | Hhi ]; cbn [andb] in Hdec.
    + destruct rest as [ | u2 rest' ]; [ discriminate | ].
      inversion Hrest as [ | ? ? Hu2 Hrest' ]; subst.
      destruct (Z.leb_spec 0xDC00 u2) as [ Hlo2 | Hlo2 ];
        destruct (Z.leb_spec u2 0xDFFF) as [ Hhi2 | Hhi2 ]; cbn [andb] in Hdec;
        try discriminate.
      destruct (Dvm.utf16_code_points rest') as [ cs | | ] eqn:Hcs;
        try discriminate.
      res_simpl_in Hdec. injection Hdec as <-.
      destruct (IH rest' cs ltac:(cbn [List.length] in Hlen; lia) Hrest' Hcs)
        as [Hscalar Henc].
      destruct (surrogates_split u u2 ltac:(lia) ltac:(lia)) as [Hc Hpair].
      split.
      * constructor; [ unfold scalar; lia | exact Hscalar ].
      * cbn [map List.concat]. rewrite Hpair, Henc. reflexivity.
    + destruct (Z.leb_spec 0xDC00 u) as [ Hlo2 | Hlo2 ];
        destruct (Z.leb_spec u 0xDFFF) as [ Hhi2 | Hhi2 ]; cbn [andb] in Hdec;
        try discriminate; try lia.
      destruct (Dvm.utf16_code_points rest) as [ cs | | ] eqn:Hcs;
        try discriminate.
      res_simpl_in Hdec. injection Hdec as <-.
      destruct (IH rest cs ltac:(cbn [List.length] in Hlen; lia) Hrest Hcs)
        as [Hscalar Henc].
      split.
      * constructor; [ unfold scalar; lia | exact Hscalar ].
      * cbn [map List.concat]. rewrite Henc. unfold utf16_encode.
        destruct (Z.ltb_spec u 0x10000); [ reflexivity | lia ].
    + destruct (Z.leb_spec 0xDC00 u) as [ Hlo2 | Hlo2 ];
        destruct (Z.leb_spec u 0xDFFF) as [ Hhi2 | Hhi2 ]; cbn [andb] in Hdec;
        try discriminate; try lia.
      destruct (Dvm.utf16_code_points rest) as [ cs | | ] eqn:Hcs;
        try discriminate.
      res_simpl_in Hdec. injection Hdec as <-.
      destruct (IH rest cs ltac:(cbn [List.length] in Hlen; lia) Hrest Hcs)
        as [Hscalar Henc].
      split.
      * constructor; [ unfold scalar; lia | exact Hscalar ].
      * cbn [map List.concat]. rewrite Henc. unfold utf16_encode.
        destruct (Z.ltb_spec u 0x10000); [ reflexivity | lia ].
    + lia.
Qed.

Lemma mapM_Ok_Forall {A B} (f : A -> res B) (P : B -> Prop) :
  (forall a b, f a = Ok b -> P b) ->
  forall (l : list A) (bs : list B), mapM f l = Ok bs -> Forall P bs.
Proof.
  intros Hf. induction l as [ | a l IH ]; intros bs Hbs.
  - injection Hbs as <-. constructor.
  - destruct (mapM_cons_Ok _ _ _ _ Hbs) as (b & bs' & Hb & Hrest & ->).
    constructor; [ exact (Hf a b Hb) | exact (IH bs' Hrest) ].
Qed.

Lemma code_units_range (m : Target) (contents offset length : Z) (us : list Z) :
  code_units m contents offset length = Ok us ->
  Forall (fun u => 0 <= u < 2 ^ 16) us.
Proof.
  unfold code_units. apply mapM_Ok_Forall. intros a u Hu.
  apply read_u2_range in Hu. change (2 ^ 16) with 65536. lia.
Qed.

Lemma swap16_range (u : Z) : 0 <= u < 2 ^ 16 -> 0 <= swap16 u < 2 ^ 16.
Proof.
  intros Hu. unfold swap16. change (2 ^ 16) with 65536 in *.
  change 0xff with (Z.ones 8). rewrite Z.land_ones by lia.
  change (2 ^ 8) with 256.
  pose proof (Z.mod_pos_bound u 256 ltac:(lia)) as Hmod.
  assert (Hdiv : 0 <= Z.shiftr u 8 < 256).
  { rewrite Z.shiftr_div_pow2 by lia. change (2 ^ 8) with 256.
    split; [ apply Z.div_pos; lia | apply Z.div_lt_upper_bound; lia ]. }
  rewrite lor_shiftl_add by (change (2 ^ 8) with 256; lia).
  change (2 ^ 8) with 256. lia.
Qed.

End Utf16Decode.

Section Utf16Specification.

(** The codec's decoding of units and the decoding of the specification
    agree on every list of 16-bit units. *)
Lemma utf16_code_points_decoding (us : list Z) (t : text) :
  Forall (fun u => 0 <= u < 2 ^ 16) us ->
  Dvm.utf16_code_points us = Ok t <-> utf16_decoding us t.
Proof.
  intros Hrange. unfold utf16_decoding. split.
  - intros Hdec. exact (utf16_code_points_decode _ us t (le_n _) Hrange Hdec).
  - intros [Hscalar <-]. apply utf16_code_points_encode. exact Hscalar.
Qed.



End Utf16Specification.




(** ** The wait message *)

Lemma waitMessage_parts (m : Target) (detail : text) (obj : Z) (thread : option Z) :
  ThreadStackTrace._waitMessage m detail obj thread
  = (ty ← type_text m obj;
     held ← held_by m thread;
     Ok (wait_head m detail obj ++ ty ++ held ++ nl)).
Proof.
  unfold ThreadStackTrace._waitMessage, type_text, held_by, wait_head.
  assert (Hheld : forall s : text,
    (s' ← match thread with
          | None => Ok s
          | Some th =>
              name ← Thread.name m th;
              tid ← Thread.__getitem__ m th t_threadId;
              Ok (s ++ T " held by tid=" ++ fmt_d tid ++ T " (" ++ name ++ T ")")
          end;
     Ok (s' ++ nl))
    = (held ← match thread with
              | None => Ok []
              | Some th =>
                  name ← Thread.name m th;
                  tid ← Thread.__getitem__ m th t_threadId;
                  Ok (T " held by tid=" ++ fmt_d tid ++ T " (" ++ name ++ T ")")
              end;
       Ok (s ++ held ++ nl))).
  { intros s. destruct thread as [ th | ].
    - destruct (Thread.name m th) as [ name | | ]; try reflexivity. cbn.
      destruct (Thread.__getitem__ m th t_threadId) as [ tid | | ]; try reflexivity.
      cbn. rewrite <- !app_assoc. reflexivity.
    - reflexivity. }
  destruct (obj =? 0).
  - res_simpl. rewrite Hheld. reflexivity.
  - destruct (clazz_of m (ObjectRef obj)) as [ clazz | | ]; try reflexivity.
    res_simpl. destruct (clazz =? classJavaLangClass (gDvm m)).
    + res_simpl. rewrite Hheld. reflexivity.
    + destruct (Dvm.humanReadableType m (ObjectRef obj)) as [ ty | | ];
        try reflexivity.
      res_simpl. rewrite Hheld.
      destruct (match thread with None => _ | Some _ => _ end); try reflexivity.
      res_simpl. rewrite <- ?app_assoc. reflexivity.
Qed.

(** C10. The line of [_waitMessage] carries the description "(a <Type>)"
    exactly when the object is not null and its class is not
    [classJavaLangClass]: for a null object and for an object of that class
    the line is the head with the object's address followed by the owner
    information; otherwise the description stands between the two. *)
Theorem waitMessage_type_description
    (m : Target) (detail : text) (obj : Z) (thread : option Z) (held : text) :
  held_by m thread = Ok held ->
  (obj = 0 ->
   ThreadStackTrace._waitMessage m detail obj thread
   = Ok (wait_head m detail obj ++ held ++ nl))
  /\ (forall o : Object,
        obj <> 0 ->
        mem_object m obj = Some o ->
        (o_clazz o = classJavaLangClass (gDvm m) ->
         ThreadStackTrace._waitMessage m detail obj thread
         = Ok (wait_head m detail obj ++ held ++ nl))
        /\ (o_clazz o <> classJavaLangClass (gDvm m) ->
            forall ty : text,
              Dvm.humanReadableType m (ObjectRef obj) = Ok ty ->
              ThreadStackTrace._waitMessage m detail obj thread
              = Ok (wait_head m detail obj ++ (T "(a " ++ ty ++ T ")") ++ held ++ nl))).
Proof.
  intros Hheld. rewrite waitMessage_parts, Hheld. unfold type_text. split.
  - intros ->. reflexivity.
  - intros o Hobj Ho. rewrite (proj2 (Z.eqb_neq obj 0) Hobj).
    unfold clazz_of. rewrite (fetch_Some _ _ Ho). cbn. split.
    + intros ->. rewrite Z.eqb_refl. reflexivity.
    + intros Hne ty Hty. rewrite (proj2 (Z.eqb_neq _ _) Hne), Hty. reflexivity.
Qed.

Lemma waitMessage_type_description_witness :
  ThreadStackTrace._waitMessage Scene.blocked (T "to lock") 0xA200 (Some 0x1000)
  = Ok (T "  - waiting to lock <41472>  held by tid=1 (main)" ++ nl)
  /\ ThreadStackTrace._waitMessage Scene.blocked (T "to lock") 0xA000 (Some 0x1000)
     = Ok (T "  - waiting to lock <40960> (a com.example.Lock) held by tid=1 (main)"
           ++ nl).
Proof.
  split.
  - exact (proj1 (proj2 (waitMessage_type_description Scene.blocked (T "to lock")
                           0xA200 (Some 0x1000) (T " held by tid=1 (main)") eq_refl)
                    {| o_clazz := 0x9000; o_lock := 0xD005 |}
                    ltac:(discriminate) eq_refl) eq_refl).
  - exact (proj2 (proj2 (waitMessage_type_description Scene.blocked (T "to lock")
                           0xA000 (Some 0x1000) (T " held by tid=1 (main)") eq_refl)
                    {| o_clazz := 0x9400; o_lock := 8 |}
                    ltac:(discriminate) eq_refl)
             ltac:(discriminate) (T "com.example.Lock") eq_refl).
Defined.

(** ** Waiting threads *)

Lemma wait_status (status : text) :
  status = T "WAIT" \/ status = T "TIMED_WAIT" ->
  bool_decide (status = T "WAIT") || bool_decide (status = T "TIMED_WAIT") = true.
Proof. intros [-> | ->]; reflexivity. Qed.





Example joining_dump :
  ThreadStackTrace.__str__ 2 Scene.joining 0x2000
  = Ok (dquote ++ T "Worker" ++ dquote ++ T " deamon prio=5 tid=2 WAIT" ++ nl
        ++ T "  | sysTid=101 self=8192" ++ nl
        ++ T "  at Worker.work (Worker.java)" ++ nl
        ++ T "  - waiting on <41216> (a java.lang.VMThread) held by tid=1 (main)" ++ nl).
Proof. vm_compute. reflexivity. Qed.

(** ** Termination

    Only the [while] loops can run out of fuel: every other function of the
    script returns or raises. *)

Lemma total_Ok {A} (a : A) : total (Ok a).
Proof. discriminate. Qed.

Lemma total_Raise {A} (e : exn) : total (@Raise A e).
Proof. discriminate. Qed.

Lemma total_fetch {A} (o : option A) : total (fetch o).
Proof. destruct o; discriminate. Qed.

Lemma total_bind {A B} (r : res A) (f : A -> res B) :
  total r -> (forall a, total (f a)) -> total (r ≫= f).
Proof. intros Hr Hf. destruct r; [ apply Hf | discriminate | contradiction ]. Qed.

Lemma total_fmap {A B} (g : A -> B) (r : res A) : total r -> total (g <$> r).
Proof. intros Hr. destruct r; [ discriminate | discriminate | contradiction ]. Qed.

Create HintDb total.
#[local] Hint Resolve total_Ok total_Raise total_fetch : total.

Ltac total_step :=
  match goal with
  | |- total (_ ≫= _) => apply total_bind; [ | intros ? ]
  | |- total (_ <$> _) => apply total_fmap
  | |- total (if ?b then _ else _) => destruct b
  | |- total (match ?x with _ => _ end) => destruct x
  | |- total (let '(_, _) := ?x in _) => destruct x
  | |- total _ => solve [ auto with total ]
  end.

Ltac total_tac := repeat total_step.

Section Total.

Variable m : Target.

Lemma total_read_u2 (a : Z) : total (read_u2 m a).
Proof. unfold read_u2. total_tac. Qed.

Lemma total_read_u4 (a : Z) : total (read_u4 m a).
Proof. unfold read_u4. total_tac. Qed.

Lemma total_clazz_of (r : ref) : total (clazz_of m r).
Proof. unfold clazz_of. total_tac. Qed.

Lemma total_getFieldP (obj offset : Z) (field : string) :
  total (Dvm.getFieldP m obj offset field).
Proof. unfold Dvm.getFieldP. total_tac. Qed.

Lemma total_lockOwner (obj : Z) : total (Dvm._lockOwner m obj).
Proof. unfold Dvm._lockOwner. total_tac. Qed.

Lemma total_pack_H (v : Z) : total (Dvm.pack_H v).
Proof. unfold Dvm.pack_H. total_tac. Qed.

Hint Resolve total_read_u2 total_read_u4 total_clazz_of total_getFieldP
  total_lockOwner total_pack_H : total.

Lemma total_read_utf16_list (n : nat) (data : Z) :
  total (Dvm.read_utf16_list m n data).
Proof.
  revert data. induction n as [ | n IH ]; intros data;
    cbn [Dvm.read_utf16_list]; total_tac.
Qed.

Lemma total_utf16_units (big_endian : bool) (bs : list Z) :
  total (Dvm.utf16_units big_endian bs).
Proof.
  remember (List.length bs) as n eqn:Hn.
  assert (Hle : (List.length bs <= n)%nat) by lia. clear Hn.
  revert bs Hle. induction n as [ | n IH ]; intros bs Hle.
  - destruct bs; [ discriminate | cbn in Hle; lia ].
  - destruct bs as [ | b0 [ | b1 rest ] ]; try discriminate.
    cbn [Dvm.utf16_units]. total_tac.
    apply IH. cbn in Hle. lia.
Qed.

Lemma total_utf16_code_points (us : list Z) :
  total (Dvm.utf16_code_points us).
Proof.
  remember (List.length us) as n eqn:Hn.
  assert (Hle : (List.length us <= n)%nat) by lia. clear Hn.
  revert us Hle. induction n as [ | n IH ]; intros us Hle.
  - destruct us; [ discriminate | cbn in Hle; lia ].
  - destruct us as [ | u rest ]; [ discriminate | ].
    cbn [Dvm.utf16_code_points]. total_tac;
      apply IH; cbn in Hle; lia.
Qed.

Hint Resolve total_read_utf16_list total_utf16_units total_utf16_code_points
  : total.

Lemma total_decode_utf16 (bs : list Z) : total (Dvm.decode_utf16 bs).
Proof. unfold Dvm.decode_utf16. total_tac. Qed.

Hint Resolve total_decode_utf16 : total.

Lemma total_createCstrFromString (s : Z) : total (Dvm.createCstrFromString m s).
Proof. unfold Dvm.createCstrFromString. total_tac. Qed.

Lemma total_humanReadableDescriptor (desc : text) :
  total (Dvm.humanReadableDescriptor desc).
Proof. unfold Dvm.humanReadableDescriptor. total_tac. Qed.

Hint Resolve total_createCstrFromString total_humanReadableDescriptor : total.

Lemma total_humanReadableType (obj : ref) : total (Dvm.humanReadableType m obj).
Proof. unfold Dvm.humanReadableType. total_tac. Qed.

Lemma total_Thread_init (a : Z) : total (Thread.__init__ a).
Proof. unfold Thread.__init__. total_tac. Qed.

Lemma total_getitem {A} (thread : Z) (key : ThreadStruct -> A) :
  total (Thread.__getitem__ m thread key).
Proof. unfold Thread.__getitem__. total_tac. Qed.

Hint Resolve total_humanReadableType total_Thread_init total_getitem : total.

Lemma total_name (thread : Z) : total (Thread.name m thread).
Proof. unfold Thread.name. total_tac. Qed.

Lemma total_status (thread : Z) : total (Thread.status m thread).
Proof. unfold Thread.status. total_tac. Qed.

Lemma total_curFrame (thread : Z) : total (Thread.curFrame m thread).
Proof. unfold Thread.curFrame. total_tac. Qed.

Lemma total_threadFromThreadObject (obj : Z) :
  total (threadFromThreadObject m obj).
Proof. unfold threadFromThreadObject. total_tac. Qed.

Hint Resolve total_name total_status total_curFrame
  total_threadFromThreadObject : total.

Lemma total_waitMessage (detail : text) (obj : Z) (thread : option Z) :
  total (ThreadStackTrace._waitMessage m detail obj thread).
Proof. unfold ThreadStackTrace._waitMessage. total_tac. Qed.

Lemma total_header (thread : Z) : total (ThreadStackTrace.header m thread).
Proof. unfold ThreadStackTrace.header. total_tac. Qed.

Lemma total_trace_line (jmethodp : Z) :
  total (ThreadStackTrace.trace_line m jmethodp).
Proof.
  unfold ThreadStackTrace.trace_line.
  apply total_bind; [ auto with total | intros ty ].
  apply total_bind; [ auto with total | intros mth ].
  apply total_bind; [ auto with total | intros name ].
  apply total_bind; [ | intros; apply total_Ok ].
  destruct (negb _); [ apply total_Ok | ].
  assert (Hsrc : total (c ← fetch (mem_class m (m_clazz mth));
                        fetch (mem_cstr m (c_sourceFile c)))) by total_tac.
  destruct (_ ≫= _) as [ sourceFile | [] | ];
    first [ discriminate | contradiction ].
Qed.

End Total.

#[local] Hint Resolve total_read_u2 total_read_u4 total_clazz_of total_getFieldP
  total_lockOwner total_humanReadableType total_Thread_init total_getitem
  total_name total_status total_curFrame total_threadFromThreadObject
  total_waitMessage total_header total_trace_line : total.

Section Loops.

Variable m : Target.

Lemma chain_ends_mono (n n' : nat) (jfp : Z) :
  (n <= n')%nat -> chain_ends m n jfp = true -> chain_ends m n' jfp = true.
Proof.
  revert n' jfp. induction n as [ | n IH ]; intros n' jfp Hle H;
    [ discriminate | ].
  destruct n' as [ | n' ]; [ lia | ].
  cbn [chain_ends] in *.
  destruct (jfp =? 0); [ reflexivity | ].
  destruct (mem_savearea m _) as [ sa | ]; [ | reflexivity ].
  destruct (sa_method sa =? 0); [ reflexivity | ].
  apply IH; [ lia | assumption ].
Qed.

Lemma list_ends_mono (n n' : nat) (a : Z) :
  (n <= n')%nat -> list_ends m n a = true -> list_ends m n' a = true.
Proof.
  revert n' a. induction n as [ | n IH ]; intros n' a Hle H;
    [ discriminate | ].
  destruct n' as [ | n' ]; [ lia | ].
  cbn [list_ends] in *.
  destruct (a =? 0); [ reflexivity | ].
  destruct (mem_thread m a) as [ t | ]; [ | reflexivity ].
  apply IH; [ lia | assumption ].
Qed.

Lemma total_getThreadbyThreadId_loop (n : nat) (a threadId : Z) :
  list_ends m n a = true ->
  total (Dvm.getThreadbyThreadId_loop n m a threadId).
Proof.
  revert a. induction n as [ | n IH ]; intros a H; [ discriminate | ].
  cbn [list_ends Dvm.getThreadbyThreadId_loop] in *.
  destruct (a =? 0); [ apply total_Ok | ].
  destruct (mem_thread m a) as [ t | ]; [ | apply total_Raise ].
  cbn [fetch]. res_simpl.
  destruct (t_threadId t =? threadId); [ apply total_Ok | ].
  apply IH. assumption.
Qed.

Variable fuel : nat.
Hypothesis threads_end : list_ends m fuel (threadList (gDvm m)) = true.

Lemma total_getObjectLockHolder (obj : Z) :
  total (Dvm.getObjectLockHolder fuel m obj).
Proof.
  unfold Dvm.getObjectLockHolder. apply total_bind; [ auto with total | ].
  intros threadId. destruct (threadId =? 0); [ apply total_Ok | ].
  apply total_getThreadbyThreadId_loop. exact threads_end.
Qed.

Hint Resolve total_getObjectLockHolder : total.

Lemma total_extractMonitorEnterObject (thread : Z) :
  total (ThreadStackTrace._extractMonitorEnterObject fuel m thread).
Proof. unfold ThreadStackTrace._extractMonitorEnterObject. total_tac. Qed.

Hint Resolve total_extractMonitorEnterObject : total.

Lemma total_wait_info (thread : Z) :
  total (ThreadStackTrace.wait_info fuel m thread).
Proof. unfold ThreadStackTrace.wait_info. total_tac. Qed.

Lemma total_frames (n : nat) (thread jfp : Z) (first : bool) (s : text) :
  chain_ends m n jfp = true ->
  total (ThreadStackTrace.frames n fuel m thread jfp first s).
Proof.
  revert jfp first s. induction n as [ | n IH ]; intros jfp first s H;
    [ discriminate | ].
  cbn [chain_ends ThreadStackTrace.frames] in *.
  destruct (jfp =? 0); [ apply total_Ok | ].
  destruct (mem_savearea m _) as [ sa | ]; [ | apply total_Raise ].
  cbn [fetch]. res_simpl.
  destruct (sa_method sa =? 0); [ apply total_Ok | ].
  apply total_bind; [ auto with total | intros line ].
  apply total_bind.
  - destruct first; [ apply total_wait_info | apply total_Ok ].
  - intros info. apply IH. assumption.
Qed.

End Loops.

(** ** Fuel

    [refines r r']: [r] ran out of fuel or is [r']. More fuel refines every
    result of the script. *)

Lemma refines_refl {A} (r : res A) : refines r r.
Proof. right. reflexivity. Qed.

Lemma refines_Timeout {A} (r : res A) : refines Timeout r.
Proof. left. reflexivity. Qed.

Lemma refines_bind {A B} (r r' : res A) (f f' : A -> res B) :
  refines r r' -> (forall a, refines (f a) (f' a)) -> refines (r ≫= f) (r' ≫= f').
Proof.
  intros [-> | ->] Hf; [ apply refines_Timeout | ].
  destruct r' as [ a | e | ]; [ apply Hf | apply refines_refl | apply refines_refl ].
Qed.

Lemma refines_total {A} (r r' : res A) : refines r r' -> r <> Timeout -> r' = r.
Proof. intros [-> | ->] H; [ contradiction | reflexivity ]. Qed.

Create HintDb fuel.
#[local] Hint Resolve refines_refl refines_Timeout : fuel.

Ltac refines_step :=
  match goal with
  | |- refines ?r ?r => apply refines_refl
  | |- refines (_ ≫= _) (_ ≫= _) => apply refines_bind; [ | intros ? ]
  | |- refines (if ?b then _ else _) (if ?b then _ else _) => destruct b
  | |- refines (match ?x with _ => _ end) (match ?x with _ => _ end) => destruct x
  | |- refines _ _ => solve [ auto with fuel ]
  end.

Ltac refines_tac := repeat refines_step.

Section Fuel.

Variable m : Target.

Lemma getThreadbyThreadId_loop_fuel (n n' : nat) (a threadId : Z) :
  (n <= n')%nat ->
  refines (Dvm.getThreadbyThreadId_loop n m a threadId)
          (Dvm.getThreadbyThreadId_loop n' m a threadId).
Proof.
  revert n' a. induction n as [ | n IH ]; intros n' a Hle;
    [ apply refines_Timeout | ].
  destruct n' as [ | n' ]; [ lia | ].
  cbn [Dvm.getThreadbyThreadId_loop]. refines_tac.
  apply IH. lia.
Qed.

Variables fuel fuel' : nat.
Hypothesis more : (fuel <= fuel')%nat.

Lemma getObjectLockHolder_fuel (obj : Z) :
  refines (Dvm.getObjectLockHolder fuel m obj)
          (Dvm.getObjectLockHolder fuel' m obj).
Proof.
  unfold Dvm.getObjectLockHolder. refines_tac.
  apply getThreadbyThreadId_loop_fuel. exact more.
Qed.

Hint Resolve getObjectLockHolder_fuel : fuel.

Lemma extractMonitorEnterObject_fuel (thread : Z) :
  refines (ThreadStackTrace._extractMonitorEnterObject fuel m thread)
          (ThreadStackTrace._extractMonitorEnterObject fuel' m thread).
Proof. unfold ThreadStackTrace._extractMonitorEnterObject. refines_tac. Qed.

Hint Resolve extractMonitorEnterObject_fuel : fuel.

Lemma wait_info_fuel (thread : Z) :
  refines (ThreadStackTrace.wait_info fuel m thread)
          (ThreadStackTrace.wait_info fuel' m thread).
Proof. unfold ThreadStackTrace.wait_info. refines_tac. Qed.

Hint Resolve wait_info_fuel : fuel.

Lemma frames_fuel (n n' : nat) (thread jfp : Z) (first : bool) (s : text) :
  (n <= n')%nat ->
  refines (ThreadStackTrace.frames n fuel m thread jfp first s)
          (ThreadStackTrace.frames n' fuel' m thread jfp first s).
Proof.
  revert n' jfp first s. induction n as [ | n IH ]; intros n' jfp first s Hle;
    [ apply refines_Timeout | ].
  destruct n' as [ | n' ]; [ lia | ].
  cbn [ThreadStackTrace.frames]. refines_tac.
  apply IH. lia.
Qed.

Lemma str_fuel (thread_addr : Z) :
  refines (ThreadStackTrace.__str__ fuel m thread_addr)
          (ThreadStackTrace.__str__ fuel' m thread_addr).
Proof.
  unfold ThreadStackTrace.__str__. refines_tac. apply frames_fuel. exact more.
Qed.

Hint Resolve str_fuel : fuel.

Lemma threads_fuel (n n' : nat) (a : Z) (s : text) :
  (n <= n')%nat ->
  refines (AllThreadsStackTrace.threads n fuel m a s)
          (AllThreadsStackTrace.threads n' fuel' m a s).
Proof.
  revert n' a s. induction n as [ | n IH ]; intros n' a s Hle;
    [ apply refines_Timeout | ].
  destruct n' as [ | n' ]; [ lia | ].
  cbn [AllThreadsStackTrace.threads]. unfold AllThreadsStackTrace.block.
  refines_tac. apply IH. lia.
Qed.

Lemma all_threads_fuel :
  refines (AllThreadsStackTrace.__str__ fuel m) (AllThreadsStackTrace.__str__ fuel' m).
Proof. unfold AllThreadsStackTrace.__str__. apply threads_fuel. exact more. Qed.

End Fuel.

(** C2, as the script has it. The walk of a thread's frames returns or
    raises whenever the chain of save areas from the thread's current frame
    ends within [n] frames and the thread list, which the search for a lock
    holder walks, ends within [k] threads: every fuel from [max n k] on is
    enough and gives the same result. No count of frames is kept. *)
Theorem stack_walk_terminates
    (m : Target) (thread_addr jfp : Z) (n k fuel : nat) :
  Thread.curFrame m thread_addr = Ok jfp ->
  chain_ends m n jfp = true ->
  list_ends m k (threadList (gDvm m)) = true ->
  (n <= fuel)%nat ->
  (k <= fuel)%nat ->
  ThreadStackTrace.__str__ fuel m thread_addr <> Timeout
  /\ (forall fuel' : nat,
        (fuel <= fuel')%nat ->
        ThreadStackTrace.__str__ fuel' m thread_addr
        = ThreadStackTrace.__str__ fuel m thread_addr).
Proof.
  intros Hcur Hchain Hlist Hn Hk.
  assert (Htotal : total (ThreadStackTrace.__str__ fuel m thread_addr)).
  { unfold ThreadStackTrace.__str__, Thread.__init__.
    destruct (thread_addr =? 0); [ discriminate | ].
    res_simpl. rewrite Hcur. res_simpl.
    apply total_bind; [ auto with total | intros s ].
    apply total_frames.
    - apply (list_ends_mono m k fuel); assumption.
    - apply (chain_ends_mono m n fuel); assumption. }
  split; [ exact Htotal | ].
  intros fuel' Hle. apply refines_total; [ | exact Htotal ].
  apply str_fuel. exact Hle.
Qed.

Lemma stack_walk_terminates_witness :
  ThreadStackTrace.__str__ 3 Scene.blocked 0x1000 <> Timeout
  /\ ThreadStackTrace.__str__ 5 Scene.blocked 0x2000
     = ThreadStackTrace.__str__ 3 Scene.blocked 0x2000.
Proof.
  split.
  - exact (proj1 (stack_walk_terminates Scene.blocked 0x1000 0x7100 3 3 3
                    eq_refl eq_refl eq_refl ltac:(lia) ltac:(lia))).
  - exact (proj2 (stack_walk_terminates Scene.blocked 0x2000 0x7300 2 3 3
                    eq_refl eq_refl eq_refl ltac:(lia) ltac:(lia))
             5%nat ltac:(lia)).
Defined.

(** On the scene with a cycle of two frames the walk of thread "main" runs
    out of every fuel. *)
Lemma cycle_frames (fuel n : nat) :
  forall (first : bool) (s : text),
    ThreadStackTrace.frames n fuel Scene.cycle 0x1000 0x7100 first s = Timeout
    /\ ThreadStackTrace.frames n fuel Scene.cycle 0x1000 0x7200 first s = Timeout.
Proof.
  assert (Hinfo : forall first : bool,
            (if first then ThreadStackTrace.wait_info fuel Scene.cycle 0x1000
             else Ok []) = Ok []).
  { intros [ | ]; reflexivity. }
  induction n as [ | n IH ]; intros first s; [ split; reflexivity | ].
  split.
  - cbn [ThreadStackTrace.frames].
    change (0x7100 =? 0) with false. cbv iota.
    change (fetch (mem_savearea Scene.cycle
                     (ThreadStackTrace._saveareaFromFP Scene.cycle 0x7100)))
      with (Ok {| sa_prevFrame := 0x7200; sa_method := 0x6000; sa_currentPc := 0 |}).
    res_simpl. cbn [sa_method sa_prevFrame].
    change (0x6000 =? 0) with false. cbv iota.
    change (ThreadStackTrace.trace_line Scene.cycle 0x6000)
      with (Ok (T "  at Main.run (Main.java)" ++ nl)).
    res_simpl. rewrite Hinfo. res_simpl. apply IH.
  - cbn [ThreadStackTrace.frames].
    change (0x7200 =? 0) with false. cbv iota.
    change (fetch (mem_savearea Scene.cycle
                     (ThreadStackTrace._saveareaFromFP Scene.cycle 0x7200)))
      with (Ok {| sa_prevFrame := 0x7100; sa_method := 0x6010; sa_currentPc := 0 |}).
    res_simpl. cbn [sa_method sa_prevFrame].
    change (0x6010 =? 0) with false. cbv iota.
    change (ThreadStackTrace.trace_line Scene.cycle 0x6010)
      with (Ok (T "  at Main.<init> (Main.java)" ++ nl)).
    res_simpl. rewrite Hinfo. res_simpl. apply IH.
Qed.

(** C2, as stated: refuted on the scene with a cycle of two frames. No fuel
    lets the walk of thread "main" return or raise. *)
Lemma stack_walk_cycle_diverges :
  ~ (exists fuel : nat, ThreadStackTrace.__str__ fuel Scene.cycle 0x1000 <> Timeout).
Proof.
  intros [fuel H]. apply H.
  unfold ThreadStackTrace.__str__.
  change (Thread.__init__ 0x1000) with (Ok 0x1000 : res Z). res_simpl.
  change (Thread.curFrame Scene.cycle 0x1000) with (Ok 0x7100 : res Z). res_simpl.
  assert (Hheader : exists s, ThreadStackTrace.header Scene.cycle 0x1000 = Ok s)
    by (eexists; vm_compute; reflexivity).
  destruct Hheader as [s ->]. res_simpl. apply cycle_frames.
Qed.

(** ** Errors of the monitor resolution *)

Section Propagation.

Variables (fuel : nat) (m : Target).

Lemma extract_wrong_opcode (thread jfp : Z) (sa : StackSaveArea) (w : Z) :
  Thread.curFrame m thread = Ok jfp ->
  mem_savearea m (ThreadStackTrace._saveareaFromFP m jfp) = Some sa ->
  read_u2 m (sa_currentPc sa) = Ok w ->
  Z.land w 0xff <> 0x1d ->
  ThreadStackTrace._extractMonitorEnterObject fuel m thread = Raise wrong_instruction.
Proof.
  intros Hcur Hsa Hw Hop. unfold ThreadStackTrace._extractMonitorEnterObject.
  rewrite Hcur. res_simpl. rewrite (fetch_Some _ _ Hsa). res_simpl.
  rewrite Hw. res_simpl. rewrite (proj2 (Z.eqb_neq _ _) Hop). reflexivity.
Qed.

(** An exception of the monitor resolution leaves [wait_info]. *)
Lemma wait_info_monitor_raise (thread : Z) (e : exn) :
  Thread.status m thread = Ok (T "MONITOR") ->
  ThreadStackTrace._extractMonitorEnterObject fuel m thread = Raise e ->
  ThreadStackTrace.wait_info fuel m thread = Raise e.
Proof.
  intros Hstatus Hextract. unfold ThreadStackTrace.wait_info.
  rewrite Hstatus, Hextract. reflexivity.
Qed.

(** An exception under the first line of the trace leaves the loop over
    the frames, whatever was collected. *)
Lemma frames_first_raise (n : nat) (thread jfp : Z) (sa : StackSaveArea)
    (line s : text) (e : exn) :
  jfp <> 0 ->
  mem_savearea m (ThreadStackTrace._saveareaFromFP m jfp) = Some sa ->
  sa_method sa <> 0 ->
  ThreadStackTrace.trace_line m (sa_method sa) = Ok line ->
  ThreadStackTrace.wait_info fuel m thread = Raise e ->
  ThreadStackTrace.frames (S n) fuel m thread jfp true s = Raise e.
Proof.
  intros Hjfp Hsa Hmethod Hline Hinfo. cbn [ThreadStackTrace.frames].
  rewrite (proj2 (Z.eqb_neq _ _) Hjfp), (fetch_Some _ _ Hsa). res_simpl.
  rewrite (proj2 (Z.eqb_neq _ _) Hmethod), Hline. res_simpl.
  rewrite Hinfo. reflexivity.
Qed.

(** An exception of one thread's block leaves the loop over the threads. *)
Lemma threads_raise (n : nat) (a : Z) (s : text) (e : exn) :
  a <> 0 ->
  ThreadStackTrace.__str__ fuel m a = Raise e ->
  AllThreadsStackTrace.threads (S n) fuel m a s = Raise e.
Proof.
  intros Ha Hstr. cbn [AllThreadsStackTrace.threads].
  unfold AllThreadsStackTrace.block.
  rewrite (proj2 (Z.eqb_neq _ _) Ha), Hstr. reflexivity.
Qed.

Lemma threads_arrives (k : nat) (a b : Z) (s s' : text) :
  arrives fuel m k a s b s' ->
  forall n, AllThreadsStackTrace.threads (k + n) fuel m a s
            = AllThreadsStackTrace.threads n fuel m b s'.
Proof.
  induction 1 as [ a s | k a s t block b s' Ha Hblock Ht _ IH ]; intros n;
    [ reflexivity | ].
  cbn [Nat.add AllThreadsStackTrace.threads].
  rewrite (proj2 (Z.eqb_neq _ _) Ha), Hblock. res_simpl.
  unfold Thread.__getitem__. rewrite (fetch_Some _ _ Ht). res_simpl.
  apply IH.
Qed.

End Propagation.

(** C1, as the script has it. For a thread in MONITOR state whose first
    frame has a method and stands on an instruction word with a low byte
    other than 0x1d, the monitor resolution raises the error "wrong
    currentPc value"; nothing catches it: the thread's block raises it, and
    so does the dump of all threads once its loop arrives at the thread. *)
Theorem wrong_opcode_propagates
    (fuel : nat) (m : Target) (thread jfp : Z) (sa : StackSaveArea) (w : Z)
    (head line : text) :
  thread <> 0 ->
  Thread.status m thread = Ok (T "MONITOR") ->
  Thread.curFrame m thread = Ok jfp ->
  jfp <> 0 ->
  mem_savearea m (ThreadStackTrace._saveareaFromFP m jfp) = Some sa ->
  sa_method sa <> 0 ->
  read_u2 m (sa_currentPc sa) = Ok w ->
  Z.land w 0xff <> 0x1d ->
  ThreadStackTrace.header m thread = Ok head ->
  ThreadStackTrace.trace_line m (sa_method sa) = Ok line ->
  ThreadStackTrace._extractMonitorEnterObject fuel m thread = Raise wrong_instruction
  /\ ((0 < fuel)%nat ->
      ThreadStackTrace.__str__ fuel m thread = Raise wrong_instruction)
  /\ (forall (k : nat) (s : text),
        (k < fuel)%nat ->
        arrives fuel m k (threadList (gDvm m)) [] thread s ->
        AllThreadsStackTrace.__str__ fuel m = Raise wrong_instruction).
Proof.
  intros Hthread Hstatus Hcur Hjfp Hsa Hmethod Hw Hop Hhead Hline.
  pose proof (extract_wrong_opcode fuel m thread jfp sa w Hcur Hsa Hw Hop)
    as Hextract.
  assert (Hstr : (0 < fuel)%nat ->
                 ThreadStackTrace.__str__ fuel m thread = Raise wrong_instruction).
  { intros Hfuel. unfold ThreadStackTrace.__str__, Thread.__init__.
    rewrite (proj2 (Z.eqb_neq _ _) Hthread). res_simpl.
    rewrite Hcur. res_simpl. rewrite Hhead. res_simpl.
    destruct fuel as [ | n ] eqn:Hn; [ lia | ].
    apply (frames_first_raise (S n) m n thread jfp sa line); try assumption.
    apply wait_info_monitor_raise; assumption. }
  split; [ exact Hextract | split; [ exact Hstr | ] ].
  intros k s Hk Harrives. unfold AllThreadsStackTrace.__str__.
  replace fuel with (k + S (fuel - S k))%nat at 1 by lia.
  rewrite (threads_arrives fuel m k _ _ _ _ Harrives).
  apply threads_raise; [ assumption | ].
  apply Hstr. lia.
Qed.

Lemma wrong_opcode_propagates_witness :
  ThreadStackTrace._extractMonitorEnterObject 3 Scene.wrong_opcode 0x2000
  = Raise wrong_instruction
  /\ ThreadStackTrace.__str__ 3 Scene.wrong_opcode 0x2000 = Raise wrong_instruction
  /\ AllThreadsStackTrace.__str__ 3 Scene.wrong_opcode = Raise wrong_instruction.
Proof.
  pose proof (wrong_opcode_propagates 3 Scene.wrong_opcode 0x2000 0x7300
                {| sa_prevFrame := 0; sa_method := 0x6020; sa_currentPc := 0x8000 |}
                0x0200
                (dquote ++ T "Worker" ++ dquote ++ T " deamon prio=5 tid=2 MONITOR"
                   ++ nl ++ T "  | sysTid=101 self=8192" ++ nl)
                (T "  at Worker.work (Worker.java)" ++ nl)
                ltac:(discriminate) eq_refl eq_refl ltac:(discriminate) eq_refl
                ltac:(discriminate) eq_refl ltac:(discriminate) eq_refl eq_refl)
    as (Hextract & Hstr & Hall).
  refine (conj Hextract (conj (Hstr ltac:(lia)) (Hall 1%nat _ ltac:(lia) _))).
  eapply arrives_next;
    [ discriminate | vm_compute; reflexivity | reflexivity | apply arrives_here ].
Defined.

(** C1, as stated: refuted on the scene where the Worker stands on another
    instruction. Thread "main" alone is dumped, but the Worker's block and
    the dump of all threads end in the error of the monitor resolution: no
    fuel gives a dump of all threads. *)
Lemma wrong_opcode_aborts_dump :
  ThreadStackTrace.__str__ 3 Scene.wrong_opcode 0x1000
  = Ok (dquote ++ T "main" ++ dquote ++ T " prio=5 tid=1 RUNNABLE" ++ nl
        ++ T "  | sysTid=100 self=4096" ++ nl
        ++ T "  at Main.run (Main.java)" ++ nl
        ++ T "  at Main.<init> (Main.java)" ++ nl)
  /\ ThreadStackTrace.__str__ 3 Scene.wrong_opcode 0x2000 = Raise wrong_instruction
  /\ AllThreadsStackTrace.__str__ 3 Scene.wrong_opcode = Raise wrong_instruction
  /\ ~ (exists (fuel : nat) (dump : text),
          AllThreadsStackTrace.__str__ fuel Scene.wrong_opcode = Ok dump).
Proof.
  assert (Hall : AllThreadsStackTrace.__str__ 3 Scene.wrong_opcode
                 = Raise wrong_instruction) by (vm_compute; reflexivity).
  split; [ vm_compute; reflexivity | ].
  split; [ vm_compute; reflexivity | ].
  split; [ exact Hall | ].
  intros (fuel & dump & Hdump).
  destruct (Nat.le_ge_cases fuel 3) as [ Hle | Hge ].
  - destruct (all_threads_fuel Scene.wrong_opcode fuel 3 Hle) as [ H | H ];
      rewrite Hdump in H; [ discriminate | ].
    rewrite Hall in H. discriminate.
  - destruct (all_threads_fuel Scene.wrong_opcode 3 fuel Hge) as [ H | H ];
      rewrite Hall in H; [ discriminate | ].
    rewrite Hdump in H. discriminate.
Qed.

(** C3, at the register index equal to the register count. On the scene
    whose monitor-enter names v4 in a method of 4 registers (v0 to v3) the
    resolution raises no error: it reads the frame slot of index 4 and
    returns the object found there with its lock holder. On the scene whose
    register v2 holds a null reference the resolution raises [ValueError],
    not its own error. *)
Theorem monitor_enter_register_bound :
  read_u2 Scene.last_register 0x8000 = Ok 0x041d
  /\ Z.shiftr 0x041d 8 = 4
  /\ m_registersSize <$> mem_method Scene.last_register 0x6020 = Some 4
  /\ ThreadStackTrace._extractMonitorEnterObject 3 Scene.last_register 0x2000
     = Ok (0xA000, Some 0x1000)
  /\ ThreadStackTrace._extractMonitorEnterObject 3 Scene.null_object 0x2000
     = Raise ValueError.
Proof. vm_compute. repeat split. Qed.

(** * Further properties of the script *)

(** ** Thread status *)

(** X1. The status of a readable thread is never an error: a raw value
    from 0 to 9 gives the name at that index of [statusList], every other
    value gives "UNKNOWN". *)
Theorem status_name (m : Target) (thread : Z) (t : ThreadStruct) :
  mem_thread m thread = Some t ->
  (0 <= t_status t < 10 ->
   exists s, Thread.statusList !! Z.to_nat (t_status t) = Some s
             /\ Thread.status m thread = Ok s)
  /\ (t_status t < 0 \/ 10 <= t_status t ->
      Thread.status m thread = Ok (T "UNKNOWN")).
Proof.
  intros Ht. unfold Thread.status, Thread.__getitem__.
  rewrite (fetch_Some _ _ Ht). res_simpl.
  change (Z.of_nat (List.length Thread.statusList)) with 10. split.
  - intros [Hlo Hhi].
    destruct (Z.ltb_spec (t_status t) 0); [ lia | ].
    destruct (Z.leb_spec 10 (t_status t)); [ lia | ].
    cbn [orb].
    destruct (Thread.statusList !! Z.to_nat (t_status t)) as [ s | ] eqn:Hs.
    + exists s. split; reflexivity.
    + apply lookup_ge_None in Hs.
      change (length Thread.statusList) with 10%nat in Hs. lia.
  - intros [Hneg | Hbig].
    + destruct (Z.ltb_spec (t_status t) 0); [ reflexivity | lia ].
    + destruct (Z.leb_spec 10 (t_status t)); [ | lia ].
      rewrite orb_true_r. reflexivity.
Qed.

Lemma status_name_witness :
  Thread.status Scene.blocked 0x2000 = Ok (T "MONITOR")
  /\ Thread.status (Scene.target 0x021d 4 0xA000 10 0 8 0) 0x2000 = Ok (T "UNKNOWN").
Proof.
  split.
  - destruct (proj1 (status_name Scene.blocked 0x2000
                       {| t_threadId := 2; t_systemTid := 101; t_status := 3;
                          t_threadObj := 0x5100; t_interpSave := true;
                          t_interpSave_curFrame := 0x7300; t_curFrame := 0;
                          t_waitMonitor := 0; t_next := 0 |} eq_refl)
                ltac:(cbn; lia)) as (s & Hs & Hstatus).
    injection Hs as <-. exact Hstatus.
  - exact (proj2 (status_name (Scene.target 0x021d 4 0xA000 10 0 8 0) 0x2000
                    {| t_threadId := 2; t_systemTid := 101; t_status := 10;
                       t_threadObj := 0x5100; t_interpSave := true;
                       t_interpSave_curFrame := 0x7300; t_curFrame := 0;
                       t_waitMonitor := 0; t_next := 0 |} eq_refl)
             ltac:(right; cbn; lia)).
Defined.

(** ** The thread list *)

(** The loop of [getThreadbyThreadId], started anywhere on the list. *)
Lemma getThreadbyThreadId_loop_found
    (fuel : nat) (m : Target) (a threadId thread : Z) :
  Dvm.getThreadbyThreadId_loop fuel m a threadId = Ok (Some thread) ->
  thread <> 0
  /\ on_list m a thread
  /\ exists t, mem_thread m thread = Some t /\ t_threadId t = threadId.
Proof.
  revert a. induction fuel as [ | fuel IH ]; intros a H; [ discriminate | ].
  cbn [Dvm.getThreadbyThreadId_loop] in H.
  destruct (Z.eqb_spec a 0) as [ | Ha ]; [ discriminate | ].
  destruct (mem_thread m a) as [ t | ] eqn:Ht; [ | discriminate ].
  cbn [fetch] in H. res_simpl_in H.
  destruct (Z.eqb_spec (t_threadId t) threadId) as [ Hid | Hid ].
  - injection H as <-. split; [ exact Ha | ]. split.
    + exact (on_list_here m a t Ha Ht).
    + exists t. split; [ exact Ht | exact Hid ].
  - destruct (IH _ H) as (Hnz & Hon & Hthread).
    split; [ exact Hnz | ]. split; [ | exact Hthread ].
    exact (on_list_next m a t thread Ha Ht Hon).
Qed.

(** X2. A thread that [getThreadbyThreadId] returns is a readable thread
    at a non-null address, it stands on the thread list, and its id is the
    id asked for. *)
Theorem getThreadbyThreadId_sound
    (fuel : nat) (m : Target) (threadId thread : Z) :
  Dvm.getThreadbyThreadId fuel m threadId = Ok (Some thread) ->
  thread <> 0
  /\ on_list m (threadList (gDvm m)) thread
  /\ exists t, mem_thread m thread = Some t /\ t_threadId t = threadId.
Proof. apply getThreadbyThreadId_loop_found. Qed.

Lemma getThreadbyThreadId_sound_witness :
  on_list Scene.blocked 0x1000 0x2000
  /\ exists t, mem_thread Scene.blocked 0x2000 = Some t /\ t_threadId t = 2.
Proof.
  exact (proj2 (getThreadbyThreadId_sound 3 Scene.blocked 2 0x2000 eq_refl)).
Defined.

(** X3. When [getThreadbyThreadId] returns [None], no thread that the walk
    of the thread list meets has the id asked for. *)
Theorem getThreadbyThreadId_none
    (fuel : nat) (m : Target) (threadId : Z) :
  Dvm.getThreadbyThreadId fuel m threadId = Ok None ->
  forall (b : Z) (t : ThreadStruct),
    on_list m (threadList (gDvm m)) b ->
    mem_thread m b = Some t ->
    t_threadId t <> threadId.
Proof.
  unfold Dvm.getThreadbyThreadId. generalize (threadList (gDvm m)) as a.
  induction fuel as [ | fuel IH ]; intros a H b tb Hon Hb; [ discriminate | ].
  cbn [Dvm.getThreadbyThreadId_loop] in H.
  destruct Hon as [ a t Ha Ht | a t b Ha Ht Hon ].
  - rewrite (proj2 (Z.eqb_neq _ _) Ha), Ht in H. cbn [fetch] in H. res_simpl_in H.
    rewrite Hb in Ht. injection Ht as Heq. subst tb.
    destruct (Z.eqb_spec (t_threadId t) threadId); [ discriminate | assumption ].
  - rewrite (proj2 (Z.eqb_neq _ _) Ha), Ht in H. cbn [fetch] in H. res_simpl_in H.
    destruct (Z.eqb_spec (t_threadId t) threadId); [ discriminate | ].
    exact (IH _ H b tb Hon Hb).
Qed.

Lemma getThreadbyThreadId_none_witness :
  Dvm.getThreadbyThreadId 3 Scene.blocked 7 = Ok None
  /\ t_threadId {| t_threadId := 2; t_systemTid := 101; t_status := 3;
                   t_threadObj := 0x5100; t_interpSave := true;
                   t_interpSave_curFrame := 0x7300; t_curFrame := 0;
                   t_waitMonitor := 0; t_next := 0 |} <> 7.
Proof.
  split; [ reflexivity | ].
  refine (getThreadbyThreadId_none 3 Scene.blocked 7 eq_refl 0x2000 _ _ eq_refl).
  eapply on_list_next; [ | reflexivity | ].
  - discriminate.
  - eapply on_list_here; [ discriminate | reflexivity ].
Defined.

(** ** Lock holders *)

(** X4. The thread that [getObjectLockHolder] returns is on the thread
    list and its id is the non-zero owner id that [_lockOwner] reads from
    the object's lock word; an object whose owner id is 0 has no holder,
    and the thread list is not walked for it. *)
Theorem getObjectLockHolder_owner (fuel : nat) (m : Target) (obj : Z) :
  (forall thread : Z,
      Dvm.getObjectLockHolder fuel m obj = Ok (Some thread) ->
      exists (tid : Z) (t : ThreadStruct),
        Dvm._lockOwner m obj = Ok tid
        /\ tid <> 0
        /\ on_list m (threadList (gDvm m)) thread
        /\ mem_thread m thread = Some t
        /\ t_threadId t = tid)
  /\ (Dvm._lockOwner m obj = Ok 0 ->
      Dvm.getObjectLockHolder 0 m obj = Ok None
      /\ Dvm.getObjectLockHolder fuel m obj = Ok None).
Proof.
  unfold Dvm.getObjectLockHolder. split.
  - intros thread H.
    destruct (Dvm._lockOwner m obj) as [ tid | | ]; try discriminate.
    res_simpl_in H.
    destruct (Z.eqb_spec tid 0) as [ | Htid ]; [ discriminate | ].
    destruct (getThreadbyThreadId_loop_found _ _ _ _ _ H) as (_ & Hon & t & Ht & Hid).
    exists tid, t. repeat split; assumption.
  - intros ->. split; reflexivity.
Qed.

Lemma getObjectLockHolder_owner_witness :
  exists (tid : Z) (t : ThreadStruct),
    Dvm._lockOwner Scene.blocked 0xA000 = Ok tid
    /\ tid <> 0
    /\ on_list Scene.blocked 0x1000 0x1000
    /\ mem_thread Scene.blocked 0x1000 = Some t
    /\ t_threadId t = tid.
Proof.
  exact (proj1 (getObjectLockHolder_owner 3 Scene.blocked 0xA000) 0x1000 eq_refl).
Defined.

(** X5. The monitor address of a lock word is the word rounded down to a
    multiple of 8, hence 8-byte aligned; the owner id of a thin lock word
    is [(word / 8) mod 65536], hence below 65536. *)
Theorem lock_word_arithmetic (lock : Z) :
  Dvm.monitor_addr lock = 8 * (lock / 8)
  /\ Z.land (Dvm.monitor_addr lock) 7 = 0
  /\ Z.land (Z.shiftr lock Dvm.LW_LOCK_OWNER_SHIFT) Dvm.LW_LOCK_OWNER_MASK
     = (lock / 8) mod 65536
  /\ 0 <= (lock / 8) mod 65536 < 65536.
Proof.
  assert (Haddr : Dvm.monitor_addr lock = 8 * (lock / 8)).
  { unfold Dvm.monitor_addr.
    change (Z.lor (Z.shiftl Dvm.LW_HASH_STATE_MASK Dvm.LW_HASH_STATE_SHIFT)
                  Dvm.LW_SHAPE_MASK) with (Z.ones 3).
    rewrite <- Z.ldiff_land, Z.ldiff_ones_r by lia.
    rewrite Z.shiftl_mul_pow2, Z.shiftr_div_pow2 by lia.
    change (2 ^ 3) with 8. lia. }
  split; [ exact Haddr | ]. split; [ | split ].
  - rewrite Haddr. change 7 with (Z.ones 3). rewrite Z.land_ones by lia.
    change (2 ^ 3) with 8. rewrite Z.mul_comm. apply Z.mod_mul. lia.
  - unfold Dvm.LW_LOCK_OWNER_SHIFT, Dvm.LW_LOCK_OWNER_MASK.
    change 0xffff with (Z.ones 16).
    rewrite Z.land_ones, Z.shiftr_div_pow2 by lia. reflexivity.
  - apply Z.mod_pos_bound. lia.
Qed.

(** ** Field access *)

(** X6. [getFieldP] knows nine kinds of field: for each of them it reads
    the slot at [obj + offset] and fails only if that memory cannot be
    read; for any other kind it raises [KeyError], whatever the memory. *)
Theorem getFieldP_kinds (m : Target) (obj offset : Z) (field : string) :
  (field ∈ field_kinds ->
   exists member : string,
     Dvm._field_map !! field = Some member
     /\ Dvm.getFieldP m obj offset field = fetch (mem_jvalue m (obj + offset) member)
     /\ Dvm.getFieldP m obj offset field <> Raise KeyError)
  /\ (field ∉ field_kinds -> Dvm.getFieldP m obj offset field = Raise KeyError).
Proof.
  split.
  - intros Hin. unfold field_kinds in Hin.
    assert (Hsome : exists member, Dvm._field_map !! field = Some member).
    { repeat (apply elem_of_cons in Hin as [ -> | Hin ];
              [ eexists; reflexivity | ]).
      apply elem_of_nil in Hin. contradiction. }
    destruct Hsome as [member Hmember]. exists member.
    unfold Dvm.getFieldP. rewrite Hmember.
    split; [ reflexivity | split; [ reflexivity | ] ].
    destruct (mem_jvalue m (obj + offset) member); discriminate.
  - intros Hnot. unfold Dvm.getFieldP.
    assert (Hnone : Dvm._field_map !! field = None).
    { apply not_elem_of_list_to_map_1. exact Hnot. }
    rewrite Hnone. reflexivity.
Qed.

Lemma getFieldP_kinds_witness :
  Dvm.getFieldP Scene.blocked 0x5000 32 "Int" = Ok 5
  /\ Dvm.getFieldP Scene.blocked 0x5000 32 "int" = Raise KeyError.
Proof.
  split.
  - destruct (proj1 (getFieldP_kinds Scene.blocked 0x5000 32 "Int")
                ltac:(unfold field_kinds; set_solver)) as (member & Hm & Hget & _).
    injection Hm as <-. exact Hget.
  - apply (proj2 (getFieldP_kinds Scene.blocked 0x5000 32 "int")).
    unfold field_kinds. intros Hin.
    repeat (apply elem_of_cons in Hin as [ Heq | Hin ]; [ discriminate Heq | ]).
    apply elem_of_nil in Hin. exact Hin.
Defined.

(** ** Strings, again *)

(** X7. Round trip. A String object whose array holds, from index
    [offset], the UTF-16 units of a text of Unicode scalar values that does
    not start with U+FEFF or U+FFFE is decoded to that text, when the end
    [offset + count] of the units is not negative and within the array. *)
Theorem createCstrFromString_round_trip
    (m : Target) (s offset chars : Z) (arr : ArrayObject) (t : text) :
  s <> 0 ->
  mem_jvalue m (s + Dvm.STRING_FIELDOFF_COUNT) "i"
    = Some (Z.of_nat (List.length (List.concat (map utf16_encode t)))) ->
  mem_jvalue m (s + Dvm.STRING_FIELDOFF_OFFSET) "i" = Some offset ->
  mem_jvalue m (s + Dvm.STRING_FIELDOFF_VALUE) "l" = Some chars ->
  mem_array m chars = Some arr ->
  0 <= offset + Z.of_nat (List.length (List.concat (map utf16_encode t)))
    <= a_length arr ->
  a_length arr < 2 ^ 32 ->
  units_stored m (chars + offsetof_ArrayObject_contents m + 2 * offset)
    (List.concat (map utf16_encode t)) ->
  Forall scalar t ->
  (forall c, head t = Some c -> c <> 0xFEFF /\ c <> 0xFFFE) ->
  Dvm.createCstrFromString m s = Ok t.
Proof.
  intros Hs Hlen Hoff Hchars Harr Hbound Hu4 Hstored Hscalar Hmark.
  rewrite (createCstrFromString_units m s _ offset chars arr
             Hs Hlen Hoff Hchars Harr (as_u4_le _ _ Hbound Hu4)).
  rewrite (code_units_stored m _ _ offset (utf16_encode_range t Hscalar) Hstored).
  res_simpl.
  transitivity (Dvm.utf16_code_points (List.concat (map utf16_encode t)));
    [ | apply utf16_code_points_encode; exact Hscalar ].
  destruct t as [ | c t ]; [ reflexivity | ].
  destruct (Hmark c eq_refl) as [Hfeff Hfffe].
  assert (Hc : scalar c) by (inversion Hscalar; assumption).
  cbn [map List.concat]. unfold utf16_encode at 1 3.
  destruct (Z.ltb_spec c 0x10000).
  - cbn [app]. unfold utf16_text.
    rewrite (proj2 (Z.eqb_neq _ _) Hfeff), (proj2 (Z.eqb_neq _ _) Hfffe).
    reflexivity.
  - cbn [app]. unfold utf16_text.
    assert (Hq : 0 <= (c - 0x10000) / 0x400 < 0x400).
    { unfold scalar in Hc.
      split; [ apply Z.div_pos; lia | apply Z.div_lt_upper_bound; lia ]. }
    destruct (Z.eqb_spec (0xD800 + (c - 0x10000) / 0x400) 0xFEFF); [ lia | ].
    destruct (Z.eqb_spec (0xD800 + (c - 0x10000) / 0x400) 0xFFFE); [ lia | ].
    reflexivity.
Qed.

Lemma createCstrFromString_round_trip_witness :
  Dvm.createCstrFromString Scene.blocked 0xB000 = Ok (T "main").
Proof.
  refine (createCstrFromString_round_trip Scene.blocked 0xB000 0 0xB100
            {| a_length := 4 |} (T "main")
            _ eq_refl eq_refl eq_refl eq_refl _ _ _ _ _).
  - discriminate.
  - vm_compute. split; discriminate.
  - reflexivity.
  - intros i u H.
    destruct i as [ | [ | [ | [ | i ] ] ] ];
      try (injection H as <-; reflexivity); discriminate H.
  - repeat constructor; unfold scalar; vm_compute; intuition discriminate.
  - intros c [= <-]. vm_compute. split; discriminate.
Defined.

(** X8. A String object whose first code unit is U+FEFF, with the end
    [offset + count] of its units not negative and within the array, is
    decoded without that unit: the codec takes it for a byte order mark,
    and the text returned is the decoding of the units after it. *)
Theorem createCstrFromString_drops_mark
    (m : Target) (s offset chars : Z) (arr : ArrayObject) (rest : list Z) :
  s <> 0 ->
  mem_jvalue m (s + Dvm.STRING_FIELDOFF_COUNT) "i"
    = Some (Z.of_nat (List.length (0xFEFF :: rest))) ->
  mem_jvalue m (s + Dvm.STRING_FIELDOFF_OFFSET) "i" = Some offset ->
  mem_jvalue m (s + Dvm.STRING_FIELDOFF_VALUE) "l" = Some chars ->
  mem_array m chars = Some arr ->
  0 <= offset + Z.of_nat (List.length (0xFEFF :: rest)) <= a_length arr ->
  a_length arr < 2 ^ 32 ->
  units_stored m (chars + offsetof_ArrayObject_contents m + 2 * offset)
    (0xFEFF :: rest) ->
  Forall (fun u => 0 <= u < 2 ^ 16) rest ->
  Dvm.createCstrFromString m s = Dvm.utf16_code_points rest
  /\ (forall t : text,
        Dvm.createCstrFromString m s = Ok t <-> utf16_decoding rest t).
Proof.
  intros Hs Hlen Hoff Hchars Harr Hbound Hu4 Hstored Hrange.
  rewrite (createCstrFromString_units m s _ offset chars arr
             Hs Hlen Hoff Hchars Harr (as_u4_le _ _ Hbound Hu4)).
  rewrite (code_units_stored m _ (0xFEFF :: rest) offset);
    [ | constructor; [ change (2 ^ 16) with 65536; lia | exact Hrange ]
      | exact Hstored ].
  res_simpl. cbn [utf16_text Z.eqb Pos.eqb].
  split; [ reflexivity | ].
  intros t. apply utf16_code_points_decoding. exact Hrange.
Qed.

Lemma createCstrFromString_drops_mark_witness :
  Dvm.createCstrFromString Scene.marked 0xB000 = Ok (T "ain").
Proof.
  refine (proj1 (createCstrFromString_drops_mark Scene.marked 0xB000 0 0xB100
                   {| a_length := 4 |} (T "ain")
                   _ eq_refl eq_refl eq_refl eq_refl _ _ _ _)).
  - discriminate.
  - vm_compute. split; discriminate.
  - reflexivity.
  - intros i u H.
    destruct i as [ | [ | [ | [ | i ] ] ] ];
      try (injection H as <-; reflexivity); discriminate H.
  - repeat constructor; vm_compute; intuition discriminate.
Defined.

(** X9. A String whose count is zero or negative, with [offset + count]
    not negative and within the array, decodes to the empty text, as a
    null String reference does; no character of the array is read. *)
Theorem createCstrFromString_empty
    (m : Target) (s length offset chars : Z) (arr : ArrayObject) :
  s <> 0 ->
  mem_jvalue m (s + Dvm.STRING_FIELDOFF_COUNT) "i" = Some length ->
  mem_jvalue m (s + Dvm.STRING_FIELDOFF_OFFSET) "i" = Some offset ->
  mem_jvalue m (s + Dvm.STRING_FIELDOFF_VALUE) "l" = Some chars ->
  mem_array m chars = Some arr ->
  0 <= offset + length <= a_length arr ->
  a_length arr < 2 ^ 32 ->
  length <= 0 ->
  Dvm.createCstrFromString m s = Ok []
  /\ Dvm.createCstrFromString m 0 = Ok [].
Proof.
  intros Hs Hlen Hoff Hchars Harr Hbound Hu4 Hneg. split; [ | reflexivity ].
  rewrite (createCstrFromString_units m s _ offset chars arr
             Hs Hlen Hoff Hchars Harr (as_u4_le _ _ Hbound Hu4)).
  unfold code_units, seqZ. rewrite Z2Nat.nonpos by assumption. reflexivity.
Qed.

Lemma createCstrFromString_empty_witness :
  Dvm.createCstrFromString Scene.unnamed 0xB000 = Ok []
  /\ Dvm.createCstrFromString Scene.negative_count_inside 0xB000 = Ok [].
Proof.
  split.
  - refine (proj1 (createCstrFromString_empty Scene.unnamed 0xB000 0 0 0xB100
                     {| a_length := 4 |} _ eq_refl eq_refl eq_refl eq_refl _ _ _)).
    + discriminate.
    + vm_compute. split; discriminate.
    + reflexivity.
    + lia.
  - refine (proj1 (createCstrFromString_empty Scene.negative_count_inside 0xB000
                     (-1) 3 0xB100
                     {| a_length := 4 |} _ eq_refl eq_refl eq_refl eq_refl _ _ _)).
    + discriminate.
    + vm_compute. split; discriminate.
    + reflexivity.
    + lia.
Defined.

(** ** Trace lines *)



(** ** The layout of a thread's block *)

Section Layout.

Variables (fuel : nat) (m : Target) (thread : Z).

(** The frames under the first one: one line each, nothing else. *)
Lemma frames_rest (jfp : Z) (methods : list Z) :
  stack m jfp methods ->
  forall (lines : list text) (n : nat) (s : text),
    mapM (ThreadStackTrace.trace_line m) methods = Ok lines ->
    (List.length methods < n)%nat ->
    ThreadStackTrace.frames n fuel m thread jfp false s
    = Ok (s ++ List.concat lines).
Proof.
  induction 1 as [ | jfp sa Hjfp Hsa Hmethod | jfp sa methods Hjfp Hsa Hmethod _ IH ];
    intros lines n s Hlines Hn.
  - destruct n as [ | n ]; [ cbn in Hn; lia | ].
    injection Hlines as <-. cbn. rewrite app_nil_r. reflexivity.
  - destruct n as [ | n ]; [ cbn in Hn; lia | ].
    injection Hlines as <-. cbn [ThreadStackTrace.frames].
    rewrite (proj2 (Z.eqb_neq _ _) Hjfp), (fetch_Some _ _ Hsa). res_simpl.
    rewrite Hmethod. cbn. rewrite app_nil_r. reflexivity.
  - destruct n as [ | n ]; [ cbn in Hn; lia | ].
    destruct (mapM_cons_Ok _ _ _ _ Hlines) as (line & lines' & Hline & Hrest & ->).
    cbn [ThreadStackTrace.frames].
    rewrite (proj2 (Z.eqb_neq _ _) Hjfp), (fetch_Some _ _ Hsa). res_simpl.
    rewrite (proj2 (Z.eqb_neq _ _) Hmethod), Hline. res_simpl.
    rewrite (IH lines' n _ Hrest) by (cbn [List.length] in Hn; lia).
    cbn [List.concat]. rewrite app_nil_r, <- !app_assoc. reflexivity.
Qed.

(** The whole loop, from the first frame. *)
Lemma frames_layout (jfp : Z) (methods : list Z) (lines : list text)
    (head info : text) (n : nat) :
  stack m jfp methods ->
  mapM (ThreadStackTrace.trace_line m) methods = Ok lines ->
  (methods <> [] -> ThreadStackTrace.wait_info fuel m thread = Ok info) ->
  (List.length methods < n)%nat ->
  ThreadStackTrace.frames n fuel m thread jfp true head
  = Ok (block_text head lines info).
Proof.
  intros Hstack Hlines Hinfo Hn.
  destruct Hstack as [ | jfp sa Hjfp Hsa Hmethod | jfp sa methods Hjfp Hsa Hmethod Hstack ].
  - destruct n as [ | n ]; [ cbn in Hn; lia | ].
    injection Hlines as <-. reflexivity.
  - destruct n as [ | n ]; [ cbn in Hn; lia | ].
    injection Hlines as <-. cbn [ThreadStackTrace.frames].
    rewrite (proj2 (Z.eqb_neq _ _) Hjfp), (fetch_Some _ _ Hsa). res_simpl.
    rewrite Hmethod. reflexivity.
  - destruct n as [ | n ]; [ cbn in Hn; lia | ].
    destruct (mapM_cons_Ok _ _ _ _ Hlines) as (line & lines' & Hline & Hrest & ->).
    cbn [ThreadStackTrace.frames].
    rewrite (proj2 (Z.eqb_neq _ _) Hjfp), (fetch_Some _ _ Hsa). res_simpl.
    rewrite (proj2 (Z.eqb_neq _ _) Hmethod), Hline. res_simpl.
    rewrite Hinfo by discriminate. res_simpl.
    rewrite (frames_rest _ _ Hstack lines' n _ Hrest)
      by (cbn [List.length] in Hn; lia).
    cbn [block_text]. rewrite <- !app_assoc. reflexivity.
Qed.

Lemma str_frames (jfp : Z) (head : text) :
  thread <> 0 ->
  Thread.curFrame m thread = Ok jfp ->
  ThreadStackTrace.header m thread = Ok head ->
  ThreadStackTrace.__str__ fuel m thread
  = ThreadStackTrace.frames fuel fuel m thread jfp true head.
Proof.
  intros Hthread Hcur Hhead. unfold ThreadStackTrace.__str__, Thread.__init__.
  rewrite (proj2 (Z.eqb_neq _ _) Hthread). res_simpl.
  rewrite Hcur. res_simpl. rewrite Hhead. reflexivity.
Qed.

End Layout.

(** X11. The block of a thread whose stack has the methods [methods]: the
    header, then one trace line for each method, innermost first, with the
    lock information between the first line and the second; a block has as
    many trace lines as the stack has frames with a method. *)
Theorem str_layout
    (fuel : nat) (m : Target) (thread jfp : Z) (methods : list Z)
    (lines : list text) (head info : text) :
  thread <> 0 ->
  Thread.curFrame m thread = Ok jfp ->
  ThreadStackTrace.header m thread = Ok head ->
  stack m jfp methods ->
  mapM (ThreadStackTrace.trace_line m) methods = Ok lines ->
  (methods <> [] -> ThreadStackTrace.wait_info fuel m thread = Ok info) ->
  (List.length methods < fuel)%nat ->
  ThreadStackTrace.__str__ fuel m thread = Ok (block_text head lines info)
  /\ List.length lines = List.length methods.
Proof.
  intros Hthread Hcur Hhead Hstack Hlines Hinfo Hfuel. split.
  - rewrite (str_frames fuel m thread jfp head Hthread Hcur Hhead).
    apply (frames_layout fuel m thread jfp methods); assumption.
  - clear - Hlines. revert lines Hlines.
    induction methods as [ | a methods IH ]; intros lines Hlines.
    + injection Hlines as <-. reflexivity.
    + destruct (mapM_cons_Ok _ _ _ _ Hlines) as (line & lines' & _ & Hrest & ->).
      cbn [List.length]. rewrite (IH _ Hrest). reflexivity.
Qed.

Lemma str_layout_witness :
  ThreadStackTrace.__str__ 3 Scene.blocked 0x1000
  = Ok (block_text
          (dquote ++ T "main" ++ dquote ++ T " prio=5 tid=1 RUNNABLE" ++ nl
             ++ T "  | sysTid=100 self=4096" ++ nl)
          [ T "  at Main.run (Main.java)" ++ nl;
            T "  at Main.<init> (Main.java)" ++ nl ]
          [])
  /\ List.length [ T "  at Main.run (Main.java)" ++ nl;
                   T "  at Main.<init> (Main.java)" ++ nl ]
     = List.length [0x6000; 0x6010].
Proof.
  refine (str_layout 3 Scene.blocked 0x1000 0x7100 [0x6000; 0x6010] _ _ []
            _ eq_refl eq_refl _ eq_refl _ _).
  - discriminate.
  - refine (stack_frame Scene.blocked 0x7100
              {| sa_prevFrame := 0x7200; sa_method := 0x6000; sa_currentPc := 0 |}
              [0x6010] _ eq_refl _ _); try discriminate.
    refine (stack_frame Scene.blocked 0x7200
              {| sa_prevFrame := 0; sa_method := 0x6010; sa_currentPc := 0 |}
              [] _ eq_refl _ _); try discriminate.
    apply stack_bottom.
  - intros _. reflexivity.
  - cbn. lia.
Defined.

(** X12. A thread without a frame - a null frame pointer, or a first frame
    whose method is null - has a block that is its header alone: its wait
    monitor and the instruction it stands on are never looked at, so that
    no lock information is printed and no error of the monitor resolution
    can arise, whatever the thread's status. *)
Theorem str_no_frame
    (fuel : nat) (m : Target) (thread jfp : Z) (head : text) :
  thread <> 0 ->
  Thread.curFrame m thread = Ok jfp ->
  ThreadStackTrace.header m thread = Ok head ->
  stack m jfp [] ->
  (0 < fuel)%nat ->
  ThreadStackTrace.__str__ fuel m thread = Ok head.
Proof.
  intros Hthread Hcur Hhead Hstack Hfuel.
  rewrite (str_frames fuel m thread jfp head Hthread Hcur Hhead).
  apply (frames_layout fuel m thread jfp [] [] head []);
    [ exact Hstack | reflexivity | intros H; contradiction | exact Hfuel ].
Qed.

Lemma str_no_frame_witness :
  Thread.status Scene.no_frame 0x2000 = Ok (T "MONITOR")
  /\ ThreadStackTrace.__str__ 1 Scene.no_frame 0x2000
     = Ok (dquote ++ T "Worker" ++ dquote ++ T " deamon prio=5 tid=2 MONITOR" ++ nl
             ++ T "  | sysTid=101 self=8192" ++ nl).
Proof.
  split; [ reflexivity | ].
  refine (str_no_frame 1 Scene.no_frame 0x2000 0 _ _ eq_refl eq_refl _ _).
  - discriminate.
  - apply stack_bottom.
  - lia.
Defined.

(** ** Lock information *)

Section LockInformation.

Variables (fuel : nat) (m : Target) (thread : Z).

(** The monitor resolution once the instruction is a monitor-enter. *)
Lemma extractMonitorEnterObject_monitor_enter
    (jfp : Z) (sa : StackSaveArea) (w : Z) (mth : Method) :
  Thread.curFrame m thread = Ok jfp ->
  mem_savearea m (ThreadStackTrace._saveareaFromFP m jfp) = Some sa ->
  read_u2 m (sa_currentPc sa) = Ok w ->
  Z.land w 0xff = 0x1d ->
  mem_method m (sa_method sa) = Some mth ->
  ThreadStackTrace._extractMonitorEnterObject fuel m thread
  = if m_registersSize mth <? Z.shiftr w 8 then
      Raise (JavaBackTraceError
               (ThreadStackTrace.invalid_register_msg (Z.shiftr w 8)
                  (m_registersSize mth)))
    else
      obj ← read_u4 m (jfp + 4 * Z.shiftr w 8);
      if (obj =? 0) || negb (Z.land obj 7 =? 0) then Raise ValueError
      else owner ← Dvm.getObjectLockHolder fuel m obj; Ok (obj, owner).
Proof.
  intros Hcur Hsa Hw Hop Hmth.
  unfold ThreadStackTrace._extractMonitorEnterObject.
  rewrite Hcur. res_simpl. rewrite (fetch_Some _ _ Hsa). res_simpl.
  rewrite Hw. res_simpl. rewrite Hop. cbn [Z.eqb Pos.eqb negb].
  rewrite (fetch_Some _ _ Hmth). reflexivity.
Qed.

(** The status texts that lead to lock information. *)
Lemma not_waiting (status : text) :
  status <> T "WAIT" -> status <> T "TIMED_WAIT" ->
  bool_decide (status = T "WAIT") || bool_decide (status = T "TIMED_WAIT") = false.
Proof.
  intros H1 H2. rewrite !bool_decide_eq_false_2 by assumption. reflexivity.
Qed.

End LockInformation.

(** X13. No lock information is printed for a thread that is neither
    waiting nor blocked on a monitor, and none for a waiting thread whose
    [waitMonitor] is null or whose monitor has a null object; nothing but
    the thread itself and that monitor is read. *)
Theorem wait_info_nothing
    (fuel : nat) (m : Target) (thread : Z) (status : text) (t : ThreadStruct) :
  Thread.status m thread = Ok status ->
  mem_thread m thread = Some t ->
  status <> T "MONITOR" ->
  (status = T "WAIT" \/ status = T "TIMED_WAIT" ->
   t_waitMonitor t = 0
   \/ exists mon : Monitor,
        mem_monitor m (t_waitMonitor t) = Some mon /\ mon_obj mon = 0) ->
  ThreadStackTrace.wait_info fuel m thread = Ok [].
Proof.
  intros Hstatus Ht Hmonitor Hwait. unfold ThreadStackTrace.wait_info.
  rewrite Hstatus. res_simpl.
  destruct (decide (status = T "WAIT" \/ status = T "TIMED_WAIT")) as [ Hw | Hw ].
  - rewrite (wait_status _ Hw).
    unfold Thread.__getitem__. rewrite (fetch_Some _ _ Ht). res_simpl.
    destruct (Hwait Hw) as [ -> | (mon & Hmon & Hobj) ]; [ reflexivity | ].
    destruct (t_waitMonitor t =? 0); [ reflexivity | ].
    rewrite (fetch_Some _ _ Hmon). res_simpl. rewrite Hobj. reflexivity.
  - rewrite not_waiting by tauto.
    rewrite bool_decide_eq_false_2 by assumption. reflexivity.
Qed.

Lemma wait_info_nothing_witness :
  ThreadStackTrace.wait_info 0 Scene.blocked 0x1000 = Ok []
  /\ ThreadStackTrace.wait_info 0 (Scene.target 0x021d 4 0xA000 4 0 8 0) 0x2000
     = Ok [].
Proof.
  split.
  - refine (wait_info_nothing 0 Scene.blocked 0x1000 (T "RUNNABLE")
              {| t_threadId := 1; t_systemTid := 100; t_status := 1;
                 t_threadObj := 0x5000; t_interpSave := true;
                 t_interpSave_curFrame := 0x7100; t_curFrame := 0;
                 t_waitMonitor := 0; t_next := 0x2000 |}
              eq_refl eq_refl _ _).
    + discriminate.
    + intros _. left. reflexivity.
  - refine (wait_info_nothing 0 (Scene.target 0x021d 4 0xA000 4 0 8 0) 0x2000
              (T "WAIT")
              {| t_threadId := 2; t_systemTid := 101; t_status := 4;
                 t_threadObj := 0x5100; t_interpSave := true;
                 t_interpSave_curFrame := 0x7300; t_curFrame := 0;
                 t_waitMonitor := 0; t_next := 0 |}
              eq_refl eq_refl _ _).
    + discriminate.
    + intros _. left. reflexivity.
Defined.

(** X14. The lock line of a thread blocked on a monitor. When the thread's
    top frame stands on a monitor-enter whose register index is at most the
    method's register count and whose frame slot holds a non-null, 8-byte
    aligned reference, the lock information is one line: "  - waiting to
    lock <object>", the description of the object's type, the thread that
    holds the object's lock if there is one, and a newline. *)
Theorem wait_info_monitor
    (fuel : nat) (m : Target) (thread jfp : Z) (sa : StackSaveArea) (w : Z)
    (mth : Method) (obj : Z) (owner : option Z) :
  Thread.status m thread = Ok (T "MONITOR") ->
  Thread.curFrame m thread = Ok jfp ->
  mem_savearea m (ThreadStackTrace._saveareaFromFP m jfp) = Some sa ->
  read_u2 m (sa_currentPc sa) = Ok w ->
  Z.land w 0xff = 0x1d ->
  mem_method m (sa_method sa) = Some mth ->
  Z.shiftr w 8 <= m_registersSize mth ->
  read_u4 m (jfp + 4 * Z.shiftr w 8) = Ok obj ->
  obj <> 0 ->
  Z.land obj 7 = 0 ->
  Dvm.getObjectLockHolder fuel m obj = Ok owner ->
  ThreadStackTrace.wait_info fuel m thread
  = (ty ← type_text m obj;
     held ← held_by m owner;
     Ok (wait_head m (T "to lock") obj ++ ty ++ held ++ nl)).
Proof.
  intros Hstatus Hcur Hsa Hw Hop Hmth Hreg Hobj Hnull Halign Howner.
  unfold ThreadStackTrace.wait_info. rewrite Hstatus. res_simpl.
  change (bool_decide (T "MONITOR" = T "WAIT")
          || bool_decide (T "MONITOR" = T "TIMED_WAIT")) with false.
  cbv iota.
  rewrite bool_decide_eq_true_2 by reflexivity.
  rewrite (extractMonitorEnterObject_monitor_enter fuel m thread jfp sa w mth
             Hcur Hsa Hw Hop Hmth).
  rewrite (proj2 (Z.ltb_ge _ _) Hreg), Hobj. res_simpl.
  rewrite (proj2 (Z.eqb_neq _ _) Hnull), Halign. cbn [Z.eqb negb orb].
  rewrite Howner. res_simpl. apply waitMessage_parts.
Qed.

Lemma wait_info_monitor_witness :
  ThreadStackTrace.wait_info 3 Scene.blocked 0x2000
  = Ok (T "  - waiting to lock <40960> (a com.example.Lock) held by tid=1 (main)"
        ++ nl).
Proof.
  exact (wait_info_monitor 3 Scene.blocked 0x2000 0x7300
           {| sa_prevFrame := 0; sa_method := 0x6020; sa_currentPc := 0x8000 |}
           0x021d
           {| m_clazz := 0x9300; m_name := 0xC700;
              m_accessFlags := 0x1; m_registersSize := 4 |}
           0xA000 (Some 0x1000)
           eq_refl eq_refl eq_refl eq_refl eq_refl eq_refl
           ltac:(vm_compute; discriminate) eq_refl ltac:(discriminate) eq_refl
           eq_refl).
Defined.

(** X15. What the monitor resolution checks once the instruction is a
    monitor-enter: the register index may be as large as [registersSize],
    and a null or misaligned object raises [ValueError]. *)
Lemma extractMonitorEnterObject_checks
    (fuel : nat) (m : Target) (thread jfp : Z) (sa : StackSaveArea) (w : Z)
    (mth : Method) :
  Thread.curFrame m thread = Ok jfp ->
  mem_savearea m (ThreadStackTrace._saveareaFromFP m jfp) = Some sa ->
  read_u2 m (sa_currentPc sa) = Ok w ->
  Z.land w 0xff = 0x1d ->
  mem_method m (sa_method sa) = Some mth ->
  (m_registersSize mth < Z.shiftr w 8 ->
   ThreadStackTrace._extractMonitorEnterObject fuel m thread
   = Raise (JavaBackTraceError
              (ThreadStackTrace.invalid_register_msg (Z.shiftr w 8)
                 (m_registersSize mth))))
  /\ (Z.shiftr w 8 <= m_registersSize mth ->
      forall obj : Z,
        read_u4 m (jfp + 4 * Z.shiftr w 8) = Ok obj ->
        (obj = 0 \/ Z.land obj 7 <> 0 ->
         ThreadStackTrace._extractMonitorEnterObject fuel m thread = Raise ValueError)
        /\ (obj <> 0 -> Z.land obj 7 = 0 ->
            ThreadStackTrace._extractMonitorEnterObject fuel m thread
            = (owner ← Dvm.getObjectLockHolder fuel m obj; Ok (obj, owner)))).
Proof.
  intros Hcur Hsa Hw Hop Hmth.
  rewrite (extractMonitorEnterObject_monitor_enter fuel m thread jfp sa w mth
             Hcur Hsa Hw Hop Hmth).
  split.
  - intros Hreg. rewrite (proj2 (Z.ltb_lt _ _) Hreg). reflexivity.
  - intros Hreg obj Hobj. rewrite (proj2 (Z.ltb_ge _ _) Hreg), Hobj. res_simpl.
    split.
    + intros [-> | Halign]; [ reflexivity | ].
      rewrite (proj2 (Z.eqb_neq _ _) Halign). cbn [negb]. rewrite orb_true_r.
      reflexivity.
    + intros Hnull Halign.
      rewrite (proj2 (Z.eqb_neq _ _) Hnull), Halign. reflexivity.
Qed.

Lemma extractMonitorEnterObject_checks_witness :
  ThreadStackTrace._extractMonitorEnterObject 3
    (Scene.target 0x051d 4 0xA000 3 0 8 0) 0x2000
  = Raise (JavaBackTraceError (ThreadStackTrace.invalid_register_msg 5 4))
  /\ ThreadStackTrace._extractMonitorEnterObject 3 Scene.null_object 0x2000
     = Raise ValueError.
Proof.
  split.
  - exact (proj1 (extractMonitorEnterObject_checks 3
                    (Scene.target 0x051d 4 0xA000 3 0 8 0) 0x2000 0x7300
                    {| sa_prevFrame := 0; sa_method := 0x6020;
                       sa_currentPc := 0x8000 |}
                    0x051d
                    {| m_clazz := 0x9300; m_name := 0xC700;
                       m_accessFlags := 0x1; m_registersSize := 4 |}
                    eq_refl eq_refl eq_refl eq_refl eq_refl)
             ltac:(vm_compute; reflexivity)).
  - exact (proj1 (proj2 (extractMonitorEnterObject_checks 3
                           Scene.null_object 0x2000 0x7300
                           {| sa_prevFrame := 0; sa_method := 0x6020;
                              sa_currentPc := 0x8000 |}
                           0x021d
                           {| m_clazz := 0x9300; m_name := 0xC700;
                              m_accessFlags := 0x1; m_registersSize := 4 |}
                           eq_refl eq_refl eq_refl eq_refl eq_refl)
                    ltac:(vm_compute; discriminate) 0 eq_refl)
             ltac:(left; reflexivity)).
Defined.

(** X16. A thread that waits on a VMThread object whose [vmData] is null:
    the constructor of [Thread] refuses the null address, and the lock
    information fails with [AssertionError] instead of a line without
    holder. *)
Theorem wait_info_join_null
    (fuel : nat) (m : Target) (thread : Z) (status : text) (t : ThreadStruct)
    (mo : Monitor) (o : Object) :
  Thread.status m thread = Ok status ->
  status = T "WAIT" \/ status = T "TIMED_WAIT" ->
  mem_thread m thread = Some t ->
  t_waitMonitor t <> 0 ->
  mem_monitor m (t_waitMonitor t) = Some mo ->
  mon_obj mo <> 0 ->
  mem_object m (mon_obj mo) = Some o ->
  o_clazz o = classJavaLangVMThread (gDvm m) ->
  mem_jvalue m (mon_obj mo + offJavaLangVMThread_vmData (gDvm m)) "i" = Some 0 ->
  threadFromThreadObject m (mon_obj mo) = Raise AssertionError
  /\ ThreadStackTrace.wait_info fuel m thread = Raise AssertionError.
Proof.
  intros Hstatus Hwait Ht Hmon Hmo Hobj Ho Hclazz HvmData.
  assert (Hfrom : threadFromThreadObject m (mon_obj mo) = Raise AssertionError).
  { unfold threadFromThreadObject. rewrite getFieldP_Int, HvmData. reflexivity. }
  split; [ exact Hfrom | ].
  unfold ThreadStackTrace.wait_info. rewrite Hstatus. res_simpl.
  rewrite (wait_status _ Hwait).
  unfold Thread.__getitem__. rewrite (fetch_Some _ _ Ht). res_simpl.
  rewrite (proj2 (Z.eqb_neq _ _) Hmon).
  rewrite (fetch_Some _ _ Hmo). res_simpl.
  rewrite (proj2 (Z.eqb_neq _ _) Hobj).
  unfold clazz_of. rewrite (fetch_Some _ _ Ho). res_simpl.
  rewrite Hclazz, Z.eqb_refl, Hfrom. reflexivity.
Qed.

Lemma wait_info_join_null_witness :
  threadFromThreadObject Scene.detached 0xA100 = Raise AssertionError
  /\ ThreadStackTrace.wait_info 2 Scene.detached 0x2000 = Raise AssertionError.
Proof.
  refine (wait_info_join_null 2 Scene.detached 0x2000 (T "WAIT")
            {| t_threadId := 2; t_systemTid := 101; t_status := 4;
               t_threadObj := 0x5100; t_interpSave := true;
               t_interpSave_curFrame := 0x7300; t_curFrame := 0;
               t_waitMonitor := 0xD100; t_next := 0 |}
            {| mon_owner := 0x1000; mon_obj := 0xA100 |}
            {| o_clazz := 0x9100; o_lock := 0xD001 |}
            eq_refl _ eq_refl _ eq_refl _ eq_refl eq_refl eq_refl).
  - left. reflexivity.
  - discriminate.
  - discriminate.
Defined.

(** ** The dump of all threads *)

Section Dump.

Variables (fuel : nat) (m : Target).

Lemma threads_layout (a : Z) (addrs : list Z) :
  thread_list m a addrs ->
  forall (blocks : list text) (n : nat) (s : text),
    mapM (AllThreadsStackTrace.block fuel m) addrs = Ok blocks ->
    (List.length addrs < n)%nat ->
    AllThreadsStackTrace.threads n fuel m a s
    = Ok (s ++ List.concat (map (fun b => b ++ nl) blocks)).
Proof.
  induction 1 as [ | a t addrs Ha Ht _ IH ]; intros blocks n s Hblocks Hn.
  - destruct n as [ | n ]; [ cbn in Hn; lia | ].
    injection Hblocks as <-. cbn. rewrite app_nil_r. reflexivity.
  - destruct n as [ | n ]; [ cbn in Hn; lia | ].
    destruct (mapM_cons_Ok _ _ _ _ Hblocks) as (b & blocks' & Hb & Hrest & ->).
    cbn [AllThreadsStackTrace.threads].
    rewrite (proj2 (Z.eqb_neq _ _) Ha), Hb. res_simpl.
    unfold Thread.__getitem__. rewrite (fetch_Some _ _ Ht). res_simpl.
    rewrite (IH blocks' n _ Hrest) by (cbn [List.length] in Hn; lia).
    cbn [map List.concat]. rewrite <- !app_assoc. reflexivity.
Qed.

(** What a block starts with. *)
Lemma frames_prefix (n : nat) (thread jfp : Z) (first : bool) (s u : text) :
  ThreadStackTrace.frames n fuel m thread jfp first s = Ok u ->
  exists rest : text, u = s ++ rest.
Proof.
  revert jfp first s. induction n as [ | n IH ]; intros jfp first s H;
    [ discriminate | ].
  cbn [ThreadStackTrace.frames] in H.
  destruct (jfp =? 0).
  { injection H as <-. exists []. rewrite app_nil_r. reflexivity. }
  destruct (fetch (mem_savearea m (ThreadStackTrace._saveareaFromFP m jfp)))
    as [ sa | | ]; try discriminate.
  res_simpl_in H. destruct (sa_method sa =? 0).
  { injection H as <-. exists []. rewrite app_nil_r. reflexivity. }
  destruct (ThreadStackTrace.trace_line m (sa_method sa)) as [ line | | ];
    try discriminate.
  res_simpl_in H.
  assert (Hinfo : exists info : text,
             ThreadStackTrace.frames n fuel m thread (sa_prevFrame sa) false
               (s ++ line ++ info) = Ok u).
  { destruct first.
    - destruct (ThreadStackTrace.wait_info fuel m thread) as [ info | | ];
        try discriminate.
      exists info. exact H.
    - exists []. exact H. }
  destruct Hinfo as [info Hinfo]. destruct (IH _ _ _ Hinfo) as [rest ->].
  exists (line ++ info ++ rest). rewrite <- !app_assoc. reflexivity.
Qed.

Lemma header_name (thread : Z) (head name : text) :
  ThreadStackTrace.header m thread = Ok head ->
  Thread.name m thread = Ok name ->
  exists rest : text, head = dquote ++ name ++ rest.
Proof.
  intros Hhead Hname. unfold ThreadStackTrace.header in Hhead.
  rewrite Hname in Hhead.
  destruct (Thread.__getitem__ m thread t_threadObj) as [ threadObj | | ];
    try discriminate.
  res_simpl_in Hhead.
  destruct (Dvm.getFieldP m threadObj (offJavaLangThread_daemon (gDvm m)) "Boolean")
    as [ isDeamon | | ]; try discriminate.
  res_simpl_in Hhead.
  destruct (Thread.status m thread) as [ status | | ]; try discriminate.
  res_simpl_in Hhead.
  destruct (Dvm.getFieldP m threadObj (offJavaLangThread_priority (gDvm m)) "Int")
    as [ priority | | ]; try discriminate.
  res_simpl_in Hhead.
  destruct (Thread.__getitem__ m thread t_threadId) as [ tid | | ];
    try discriminate.
  res_simpl_in Hhead.
  destruct (Thread.__getitem__ m thread t_systemTid) as [ systemTid | | ];
    try discriminate.
  res_simpl_in Hhead. injection Hhead as <-. eexists. reflexivity.
Qed.

Lemma str_name (thread : Z) (u name : text) :
  ThreadStackTrace.__str__ fuel m thread = Ok u ->
  Thread.name m thread = Ok name ->
  exists rest : text, u = dquote ++ name ++ rest.
Proof.
  intros Hstr Hname. unfold ThreadStackTrace.__str__, Thread.__init__ in Hstr.
  destruct (thread =? 0); [ discriminate | ]. res_simpl_in Hstr.
  destruct (Thread.curFrame m thread) as [ jfp | | ]; try discriminate.
  res_simpl_in Hstr.
  destruct (ThreadStackTrace.header m thread) as [ head | | ] eqn:Hhead;
    try discriminate.
  res_simpl_in Hstr.
  destruct (frames_prefix _ _ _ _ _ _ Hstr) as [rest ->].
  destruct (header_name thread head name Hhead Hname) as [rest' ->].
  exists (rest' ++ rest). rewrite <- !app_assoc. reflexivity.
Qed.

End Dump.

(** X17. The dump of all threads, when the thread list holds the threads
    [addrs] and ends in a null [next]: the blocks of these threads in the
    order of the list, each followed by an empty line; for an empty list
    the dump is the empty text. *)
Theorem all_threads_layout
    (fuel : nat) (m : Target) (addrs : list Z) (blocks : list text) :
  thread_list m (threadList (gDvm m)) addrs ->
  mapM (AllThreadsStackTrace.block fuel m) addrs = Ok blocks ->
  (List.length addrs < fuel)%nat ->
  AllThreadsStackTrace.__str__ fuel m
  = Ok (List.concat (map (fun b => b ++ nl) blocks)).
Proof.
  intros Hlist Hblocks Hfuel. unfold AllThreadsStackTrace.__str__.
  apply (threads_layout fuel m _ addrs Hlist blocks fuel [] Hblocks Hfuel).
Qed.

Lemma all_threads_layout_witness :
  AllThreadsStackTrace.__str__ 3 Scene.blocked
  = Ok (List.concat (map (fun b => b ++ nl)
          [ dquote ++ T "main" ++ dquote ++ T " prio=5 tid=1 RUNNABLE" ++ nl
              ++ T "  | sysTid=100 self=4096" ++ nl
              ++ T "  at Main.run (Main.java)" ++ nl
              ++ T "  at Main.<init> (Main.java)" ++ nl;
            dquote ++ T "Worker" ++ dquote ++ T " deamon prio=5 tid=2 MONITOR" ++ nl
              ++ T "  | sysTid=101 self=8192" ++ nl
              ++ T "  at Worker.work (Worker.java)" ++ nl
              ++ T "  - waiting to lock <40960> (a com.example.Lock) held by tid=1 (main)"
              ++ nl ])).
Proof.
  refine (all_threads_layout 3 Scene.blocked [0x1000; 0x2000] _ _ _ _).
  - refine (thread_list_cons Scene.blocked 0x1000
              {| t_threadId := 1; t_systemTid := 100; t_status := 1;
                 t_threadObj := 0x5000; t_interpSave := true;
                 t_interpSave_curFrame := 0x7100; t_curFrame := 0;
                 t_waitMonitor := 0; t_next := 0x2000 |}
              [0x2000] _ eq_refl _); [ discriminate | ].
    refine (thread_list_cons Scene.blocked 0x2000
              {| t_threadId := 2; t_systemTid := 101; t_status := 3;
                 t_threadObj := 0x5100; t_interpSave := true;
                 t_interpSave_curFrame := 0x7300; t_curFrame := 0;
                 t_waitMonitor := 0; t_next := 0 |}
              [] _ eq_refl _); [ discriminate | ].
    apply thread_list_nil.
  - vm_compute. reflexivity.
  - cbn. lia.
Defined.

(** X18. A thread whose name holds a character outside ASCII cannot be
    dumped: its block is Unicode text that starts with the quoted name,
    and [str()] of it, which the dump of all threads takes, raises
    [UnicodeEncodeError]. *)
Theorem block_non_ascii_name
    (fuel : nat) (m : Target) (thread : Z) (name u : text) :
  Thread.name m thread = Ok name ->
  Exists (fun c => 128 <= c) name ->
  ThreadStackTrace.__str__ fuel m thread = Ok u ->
  AllThreadsStackTrace.block fuel m thread = Raise UnicodeEncodeError.
Proof.
  intros Hname Hchar Hstr. unfold AllThreadsStackTrace.block.
  rewrite Hstr. res_simpl. unfold AllThreadsStackTrace.encode_ascii.
  destruct (str_name fuel m thread u name Hstr Hname) as [rest ->].
  destruct (forallb (fun c => c <? 128) (dquote ++ name ++ rest)) eqn:Hall;
    [ | reflexivity ].
  exfalso. rewrite forallb_app in Hall. apply andb_prop in Hall as [_ Hall].
  rewrite forallb_app in Hall. apply andb_prop in Hall as [Hall _].
  rewrite forallb_forall in Hall.
  apply Exists_exists in Hchar as (c & Hin & Hc).
  specialize (Hall c). rewrite <- list_elem_of_In in Hall.
  specialize (Hall Hin). apply Z.ltb_lt in Hall. lia.
Qed.

Lemma block_non_ascii_name_witness :
  AllThreadsStackTrace.block 3 Scene.accented 0x1000 = Raise UnicodeEncodeError.
Proof.
  refine (block_non_ascii_name 3 Scene.accented 0x1000
            [109; 0xE9; 105; 110]
            (dquote ++ [109; 0xE9; 105; 110] ++ dquote
               ++ T " prio=5 tid=1 RUNNABLE" ++ nl
               ++ T "  | sysTid=100 self=4096" ++ nl
               ++ T "  at Main.run (Main.java)" ++ nl
               ++ T "  at Main.<init> (Main.java)" ++ nl)
            eq_refl _ _).
  - apply Exists_cons_tl. apply Exists_cons_hd. lia.
  - vm_compute. reflexivity.
Defined.

(** ** The command line *)

(** [invoke], by the shape of its arguments. *)
Lemma invoke_cases (args : list string) :
  JavaBackTraceCommand.invoke args
  = match args with
    | [] => (false, JavaBackTraceCommand.print_AllThreadsStackTrace)
    | a :: rest =>
        if bool_decide (a = "-h"%string) || bool_decide (a = "--help"%string)
        then (false, JavaBackTraceCommand.help)
        else if bool_decide (a = "-d"%string) then
          match rest with
          | [] => (true, JavaBackTraceCommand.print_AllThreadsStackTrace)
          | [x] => (true, JavaBackTraceCommand.print_ThreadStackTrace x)
          | _ => (true, JavaBackTraceCommand.help)
          end
        else
          match rest with
          | [] => (false, JavaBackTraceCommand.print_ThreadStackTrace a)
          | _ => (false, JavaBackTraceCommand.help)
          end
    end.
Proof.
  destruct args as [ | a rest ]; [ reflexivity | ].
  unfold JavaBackTraceCommand.invoke.
  cbn [List.length lookup list_lookup].
  replace (0 <? Z.of_nat (S (List.length rest))) with true
    by (symmetry; apply Z.ltb_lt; lia).
  assert (Hdec : forall x : string,
             bool_decide (Some a = Some x) = bool_decide (a = x)).
  { intros x. apply bool_decide_ext. split; congruence. }
  rewrite !Hdec.
  destruct (bool_decide (a = "-h"%string) || bool_decide (a = "--help"%string));
    [ reflexivity | ].
  destruct (bool_decide (a = "-d"%string)).
  - cbn [drop]. destruct rest as [ | x [ | y rest ] ]; try reflexivity.
    cbn [drop].
    replace (1 <? Z.of_nat (List.length (x :: y :: rest))) with true
      by (symmetry; apply Z.ltb_lt; cbn [List.length]; lia).
    reflexivity.
  - destruct rest as [ | x rest ]; [ reflexivity | ].
    replace (1 <? Z.of_nat (List.length (a :: x :: rest))) with true
      by (symmetry; apply Z.ltb_lt; cbn [List.length]; lia).
    reflexivity.
Qed.

(** X19. What [jbt] decides from its arguments. Debug output is on
    exactly when the first argument is [-d], and that argument is then
    left out. The help text is printed exactly when the first argument is
    [-h] or [--help], or more than one argument remains; [-h] is not
    looked for behind [-d], where it is taken for a thread address.
    All threads are dumped exactly when no argument remains. *)
Theorem invoke_dispatch (args : list string) :
  (fst (JavaBackTraceCommand.invoke args) = true
   <-> args !! 0%nat = Some "-d"%string)
  /\ (snd (JavaBackTraceCommand.invoke args) = JavaBackTraceCommand.help
      <-> args !! 0%nat = Some "-h"%string
          \/ args !! 0%nat = Some "--help"%string
          \/ (args !! 0%nat = Some "-d"%string /\ (2 < List.length args)%nat)
          \/ (args !! 0%nat <> Some "-d"%string /\ (1 < List.length args)%nat))
  /\ (forall x : string,
        JavaBackTraceCommand.invoke [ "-d"%string; x ]
        = (true, JavaBackTraceCommand.print_ThreadStackTrace x))
  /\ (snd (JavaBackTraceCommand.invoke args)
      = JavaBackTraceCommand.print_AllThreadsStackTrace
      <-> args = [] \/ args = [ "-d"%string ]).
Proof.
  rewrite invoke_cases.
  split; [ | split; [ | split ] ].
  - destruct args as [ | a rest ]; [ cbn; split; discriminate | ].
    cbn [lookup list_lookup].
    destruct (decide (a = "-h"%string)) as [ -> | Hh ];
      [ cbn; split; discriminate | ].
    destruct (decide (a = "--help"%string)) as [ -> | Hhelp ];
      [ cbn; split; discriminate | ].
    rewrite !(bool_decide_eq_false_2 _ Hh), !(bool_decide_eq_false_2 _ Hhelp).
    cbn [orb].
    destruct (decide (a = "-d"%string)) as [ -> | Hd ].
    + cbn [bool_decide]. destruct rest as [ | x [ | y rest ] ]; cbn; tauto.
    + rewrite (bool_decide_eq_false_2 _ Hd).
      destruct rest; cbn; split; try discriminate; congruence.
  - destruct args as [ | a rest ].
    + cbn. split; [ discriminate | ].
      intros [ H | [ H | [ [H _] | [_ H] ] ] ]; try discriminate; lia.
    + cbn [lookup list_lookup List.length].
      destruct (decide (a = "-h"%string)) as [ -> | Hh ];
        [ cbn; split; auto | ].
      destruct (decide (a = "--help"%string)) as [ -> | Hhelp ];
        [ cbn; split; auto | ].
      rewrite !(bool_decide_eq_false_2 _ Hh), !(bool_decide_eq_false_2 _ Hhelp).
      cbn [orb].
      destruct (decide (a = "-d"%string)) as [ -> | Hd ].
      * cbn [bool_decide].
        destruct rest as [ | x [ | y rest ] ]; cbn; split;
          try discriminate; try (intros _; reflexivity).
        -- intros [ H | [ H | [ [_ H] | [H _] ] ] ];
             try discriminate; try lia; congruence.
        -- intros [ H | [ H | [ [_ H] | [H _] ] ] ];
             try discriminate; try lia; congruence.
        -- intros _. right. right. left. split; [ reflexivity | lia ].
      * rewrite (bool_decide_eq_false_2 _ Hd).
        destruct rest as [ | x rest ]; cbn; split;
          try discriminate; try (intros _; reflexivity).
        -- intros [ H | [ H | [ [H _] | [_ H] ] ] ];
             try congruence; lia.
        -- intros _. right. right. right. split; [ congruence | lia ].
  - intros x. rewrite invoke_cases. reflexivity.
  - destruct args as [ | a rest ]; [ cbn; split; auto | ].
    destruct (decide (a = "-h"%string)) as [ -> | Hh ];
      [ cbn; split; [ discriminate | intros [ H | H ]; discriminate ] | ].
    destruct (decide (a = "--help"%string)) as [ -> | Hhelp ];
      [ cbn; split; [ discriminate | intros [ H | H ]; discriminate ] | ].
    rewrite !(bool_decide_eq_false_2 _ Hh), !(bool_decide_eq_false_2 _ Hhelp).
    cbn [orb].
    destruct (decide (a = "-d"%string)) as [ -> | Hd ].
    + cbn [bool_decide].
      destruct rest as [ | x [ | y rest ] ]; cbn; split; auto;
        try discriminate; intros [ H | H ]; discriminate.
    + rewrite (bool_decide_eq_false_2 _ Hd).
      destruct rest; cbn; split; try discriminate;
        intros [ H | H ]; try discriminate; congruence.
Qed.

(** ** The cache of pointer types *)

(** X20. The cache of [Types] is transparent. If every cached type is the
    one the debugger gives for its key, then [types[key]] answers what a
    fresh lookup of [key] answers, the cache afterwards is still of that
    kind and holds everything it held before, other keys are not touched,
    a failed lookup leaves the cache as it was, and asking again gives the
    same answer without changing the cache. [cast_p] then pairs the
    address with the debugger's pointer type, whatever the cache holds. *)
Theorem types_getitem_memo
    (gdb_type : Type) (lookup_type : string -> option gdb_type)
    (_types : gmap string (Types.pointer_type gdb_type)) (key : string) :
  coherent lookup_type _types ->
  fst (Types.__getitem__ gdb_type lookup_type _types key)
  = Types._pointer gdb_type lookup_type key
  /\ coherent lookup_type (snd (Types.__getitem__ gdb_type lookup_type _types key))
  /\ (forall k : string,
        k <> key ->
        snd (Types.__getitem__ gdb_type lookup_type _types key) !! k = _types !! k)
  /\ snd (Types.__getitem__ gdb_type lookup_type _types key) !! key
     = fst (Types.__getitem__ gdb_type lookup_type _types key)
  /\ (Types._pointer gdb_type lookup_type key = None ->
      snd (Types.__getitem__ gdb_type lookup_type _types key) = _types)
  /\ Types.__getitem__ gdb_type lookup_type
       (snd (Types.__getitem__ gdb_type lookup_type _types key)) key
     = Types.__getitem__ gdb_type lookup_type _types key
  /\ (forall addr : Z,
        fst (Types.cast_p gdb_type lookup_type _types addr key)
        = pair addr <$> Types._pointer gdb_type lookup_type key).
Proof.
  intros Hcoh. unfold Types.cast_p, Types.__getitem__.
  destruct (_types !! key) as [ p | ] eqn:Hkey.
  - cbn [fst snd]. rewrite Hkey.
    split; [ symmetry; apply (Hcoh key p Hkey) | ].
    split; [ exact Hcoh | ].
    split; [ reflexivity | ].
    split; [ reflexivity | ].
    split; [ reflexivity | ].
    split; [ reflexivity | ].
    intros addr. rewrite <- (Hcoh key p Hkey). reflexivity.
  - destruct (Types._pointer gdb_type lookup_type key) as [ p | ] eqn:Hp.
    + cbn [fst snd]. rewrite !lookup_insert_eq.
      split; [ reflexivity | ].
      split.
      { intros k q Hk. destruct (decide (key = k)) as [ <- | Hne ].
        - rewrite lookup_insert_eq in Hk. congruence.
        - rewrite lookup_insert_ne in Hk by assumption. apply (Hcoh k q Hk). }
      split; [ intros k Hne; apply lookup_insert_ne; congruence | ].
      split; [ reflexivity | ].
      split; [ discriminate | ].
      split; reflexivity.
    + cbn [fst snd]. rewrite Hkey.
      split; [ reflexivity | ].
      split; [ exact Hcoh | ].
      split; [ reflexivity | ].
      split; [ reflexivity | ].
      split; [ reflexivity | ].
      split; reflexivity.
Qed.

Lemma types_getitem_memo_witness :
  fst (Types.__getitem__ string Scene.lookup_type ∅ "char")
  = Some (Types.pointer string "char")
  /\ snd (Types.__getitem__ string Scene.lookup_type ∅ "char") !! "char"%string
     = Some (Types.pointer string "char")
  /\ fst (Types.__getitem__ string Scene.lookup_type ∅ "u2") = None.
Proof.
  assert (Hempty : coherent Scene.lookup_type
                     (∅ : gmap string (Types.pointer_type string))).
  { intros k p Hk. rewrite lookup_empty in Hk. discriminate Hk. }
  destruct (types_getitem_memo string Scene.lookup_type ∅ "char" Hempty)
    as (Hfst & _ & _ & Hsnd & _ & _ & _).
  destruct (types_getitem_memo string Scene.lookup_type ∅ "u2" Hempty)
    as (Hnone & _).
  split; [ exact Hfst | ]. split; [ | exact Hnone ].
  rewrite Hsnd. exact Hfst.
Defined.

(** ** The first thread with an id *)

(** X21. [getThreadbyThreadId] returns the first thread of the list that
    has the id: when the walk from the head of the list passes threads
    with other ids and then stands at a thread with the id asked for, that
    thread is returned, whatever follows it on the list; when it stands at
    the null end of the list, the answer is [None]. *)
Theorem getThreadbyThreadId_first
    (fuel : nat) (m : Target) (threadId : Z) (before : list Z) (b : Z) :
  list_segment m (threadList (gDvm m)) before b ->
  (forall (a : Z) (t : ThreadStruct),
      a ∈ before -> mem_thread m a = Some t -> t_threadId t <> threadId) ->
  (List.length before < fuel)%nat ->
  (b = 0 -> Dvm.getThreadbyThreadId fuel m threadId = Ok None)
  /\ (forall tb : ThreadStruct,
        b <> 0 -> mem_thread m b = Some tb -> t_threadId tb = threadId ->
        Dvm.getThreadbyThreadId fuel m threadId = Ok (Some b)).
Proof.
  unfold Dvm.getThreadbyThreadId. generalize (threadList (gDvm m)) as a.
  intros a Hseg. revert fuel.
  induction Hseg as [ a | a t l b Ha Ht _ IH ]; intros fuel Hids Hfuel.
  - destruct fuel as [ | fuel ]; [ cbn in Hfuel; lia | ]. split.
    + intros ->. reflexivity.
    + intros tb Hb Htb Hid. cbn [Dvm.getThreadbyThreadId_loop].
      rewrite (proj2 (Z.eqb_neq _ _) Hb), (fetch_Some _ _ Htb). res_simpl.
      rewrite Hid, Z.eqb_refl. reflexivity.
  - destruct fuel as [ | fuel ]; [ cbn in Hfuel; lia | ].
    cbn [Dvm.getThreadbyThreadId_loop].
    rewrite (proj2 (Z.eqb_neq _ _) Ha), (fetch_Some _ _ Ht). res_simpl.
    rewrite (proj2 (Z.eqb_neq _ _) (Hids a t ltac:(left) Ht)).
    apply IH.
    + intros a' t' Hin. apply Hids. right. exact Hin.
    + cbn [List.length] in Hfuel. lia.
Qed.

Lemma getThreadbyThreadId_first_witness :
  Dvm.getThreadbyThreadId 2 Scene.blocked 2 = Ok (Some 0x2000).
Proof.
  refine (proj2 (getThreadbyThreadId_first 2 Scene.blocked 2 [0x1000] 0x2000 _ _ _)
            {| t_threadId := 2; t_systemTid := 101; t_status := 3;
               t_threadObj := 0x5100; t_interpSave := true;
               t_interpSave_curFrame := 0x7300; t_curFrame := 0;
               t_waitMonitor := 0; t_next := 0 |} _ eq_refl eq_refl).
  - refine (list_segment_cons Scene.blocked 0x1000
              {| t_threadId := 1; t_systemTid := 100; t_status := 1;
                 t_threadObj := 0x5000; t_interpSave := true;
                 t_interpSave_curFrame := 0x7100; t_curFrame := 0;
                 t_waitMonitor := 0; t_next := 0x2000 |}
              [] 0x2000 _ eq_refl _); [ discriminate | ].
    apply list_segment_nil.
  - intros a t Hin Ht. apply list_elem_of_singleton in Hin. subst a.
    injection Ht as <-. discriminate.
  - cbn. lia.
  - discriminate.
Defined.

(** ** Strings, from the text back to the units *)

(** X22. The text that [createCstrFromString] returns consists of Unicode
    scalar values: a String whose units are not well-formed UTF-16 has no
    text. When the first unit is not a byte order mark, the UTF-16 units
    of the returned text are the units of the String. *)
Theorem createCstrFromString_well_formed
    (m : Target) (s length offset chars : Z) (arr : ArrayObject)
    (us : list Z) (t : text) :
  s <> 0 ->
  mem_jvalue m (s + Dvm.STRING_FIELDOFF_COUNT) "i" = Some length ->
  mem_jvalue m (s + Dvm.STRING_FIELDOFF_OFFSET) "i" = Some offset ->
  mem_jvalue m (s + Dvm.STRING_FIELDOFF_VALUE) "l" = Some chars ->
  mem_array m chars = Some arr ->
  offset + length <= a_length arr ->
  code_units m (chars + offsetof_ArrayObject_contents m) offset length = Ok us ->
  Dvm.createCstrFromString m s = Ok t ->
  Forall scalar t
  /\ ((forall u : Z, head us = Some u -> u <> 0xFEFF /\ u <> 0xFFFE) ->
      List.concat (map utf16_encode t) = us).
Proof.
  intros Hs Hlen Hoff Hchars Harr Hbound Hunits Hstr.
  rewrite (createCstrFromString_fields m s _ offset chars arr
             Hs Hlen Hoff Hchars Harr) in Hstr.
  destruct (as_u4 (offset + length) <=? as_u4 (a_length arr));
    [ | discriminate Hstr ].
  rewrite Hunits in Hstr. res_simpl_in Hstr.
  pose proof (code_units_range _ _ _ _ _ Hunits) as Hrange.
  destruct us as [ | u rest ].
  { injection Hstr as <-. split; [ constructor | reflexivity ]. }
  inversion Hrange as [ | ? ? Hu Hrest ]; subst.
  unfold utf16_text in Hstr.
  destruct (Z.eqb_spec u 0xFEFF) as [ Hfeff | Hfeff ].
  { split.
    - apply (utf16_code_points_decode _ rest t (le_n _) Hrest Hstr).
    - intros Hmark. destruct (Hmark u eq_refl) as [H _]. contradiction. }
  destruct (Z.eqb_spec u 0xFFFE) as [ Hfffe | Hfffe ].
  { split.
    - apply (utf16_code_points_decode _ (map swap16 rest) t (le_n _)); [ | exact Hstr ].
      apply Forall_fmap. eapply Forall_impl; [ exact Hrest | ].
      intros x Hx. apply swap16_range. exact Hx.
    - intros Hmark. destruct (Hmark u eq_refl) as [_ H]. contradiction. }
  destruct (utf16_code_points_decode _ (u :: rest) t (le_n _) Hrange Hstr)
    as [Hscalar Henc].
  split; [ exact Hscalar | intros _; exact Henc ].
Qed.

Lemma createCstrFromString_well_formed_witness :
  Forall scalar (T "Worker")
  /\ ((forall u : Z, head (T "Worker") = Some u -> u <> 0xFEFF /\ u <> 0xFFFE) ->
      List.concat (map utf16_encode (T "Worker")) = T "Worker").
Proof.
  refine (createCstrFromString_well_formed Scene.blocked 0xB200 6 0 0xB300
            {| a_length := 6 |} (T "Worker") (T "Worker")
            _ eq_refl eq_refl eq_refl eq_refl _ _ _).
  - discriminate.
  - vm_compute. discriminate.
  - vm_compute. reflexivity.
  - vm_compute. reflexivity.
Defined.
